(** * Verifiable transactions: signing and offline verification

    A shallow embedding of [src/encode.js]: [createTransaction] builds a
    transaction object, serialises it with [JSON.stringify], signs the bytes
    and attaches the base64 signature; [verifyTransaction] strips the
    signature, re-serialises, rejects transactions that are five minutes old
    and otherwise returns what the signature check says.

    The JavaScript the two functions rely on is modelled as far as they use
    it: property values (the JSON scalars and [undefined]), objects as
    property lists in enumeration order, [JSON.stringify] on such objects,
    [Date] time values and [toISOString], exceptions.  A run of either
    function is its list of calls to [node:crypto] and the way it ends.  The
    host's services that are not code of this repository (the signature
    primitive of [node:crypto], [Buffer]'s base64 codec, [Date.parse]) are
    the fields of a [Runtime]; the reading of the host clock that
    [new Date()] takes is an argument of each function. *)

From Stdlib Require Import ZArith List String Ascii Bool Lia.
From Stdlib Require Import DecimalString.
Import ListNotations.

Open Scope string_scope.
Open Scope Z_scope.

(** * Part I: the model *)

(** ** Strings

    A JavaScript string is kept as the bytes of its UTF-8 encoding, which is
    what [update] hands to the hash. *)

Module Str.

(** The double quote character, U+0022. *)
Definition dquote : ascii := ascii_of_nat 34.

(** The backslash character, U+005C. *)
Definition backslash : ascii := ascii_of_nat 92.

(** [q s] is [s] with every apostrophe replaced by a double quote, so that
    JSON texts can be written down legibly. *)
Fixpoint q (s : string) : string :=
  match s with
  | EmptyString => EmptyString
  | String c s' => String (if Ascii.eqb c "'"%char then dquote else c) (q s')
  end.

Fixpoint repeat_char (c : ascii) (n : nat) : string :=
  match n with
  | O => EmptyString
  | S n' => String c (repeat_char c n')
  end.

(** The decimal digit character of [z mod 10]. *)
Definition digit_of_Z (z : Z) : ascii := ascii_of_N (48 + Z.to_N (z mod 10)).

(** [z] in decimal, on exactly [width] characters (the low digits, zero padded). *)
Fixpoint pad (width : nat) (z : Z) : string :=
  match width with
  | O => EmptyString
  | S w => pad w (z / 10) ++ String (digit_of_Z z) EmptyString
  end.

End Str.

(** ** JavaScript numbers

    The code never computes with [amount]; it stores it and prints it.  A
    finite non-zero Number is therefore kept as the decimal that
    [Number::toString] prints for it: its sign, its significant digits
    [d1 d2 ... dk] and the exponent [n] with value [0.d1d2...dk * 10^n]
    (the [s], [k] and [n] of ECMA-262, 6.1.6.1.20).  Every Number has one
    such decimal, the shortest that reads back as it; the type also holds
    digit sequences that are the decimal of no Number, and what is proved
    for all of its inhabitants holds for the Numbers among them. *)

Module Num.

Inductive digit : Type := d0 | d1 | d2 | d3 | d4 | d5 | d6 | d7 | d8 | d9.

Definition digit_char (d : digit) : ascii :=
  match d with
  | d0 => "0" | d1 => "1" | d2 => "2" | d3 => "3" | d4 => "4"
  | d5 => "5" | d6 => "6" | d7 => "7" | d8 => "8" | d9 => "9"
  end%char.

Definition digit_value (d : digit) : Z :=
  match d with
  | d0 => 0 | d1 => 1 | d2 => 2 | d3 => 3 | d4 => 4
  | d5 => 5 | d6 => 6 | d7 => 7 | d8 => 8 | d9 => 9
  end.

Fixpoint digits_string (ds : list digit) : string :=
  match ds with
  | [] => EmptyString
  | d :: ds' => String (digit_char d) (digits_string ds')
  end.

(** The integer a digit sequence denotes, most significant digit first. *)
Definition digits_value (ds : list digit) : Z :=
  fold_left (fun acc d => 10 * acc + digit_value d) ds 0.

Inductive number : Type :=
| NaN
| Infinity (negative : bool)
| Zero (negative : bool)
| Finite (negative : bool) (d : digit) (ds : list digit) (n : Z).

Definition isFinite (x : number) : bool :=
  match x with
  | NaN | Infinity _ => false
  | Zero _ | Finite _ _ _ _ => true
  end.

(** Decimal text of a natural exponent. *)
Definition exponent_string (e : Z) : string :=
  NilZero.string_of_uint (N.to_uint (Z.to_N e)).

(** [Number::toString] for a positive finite number with digits [d :: ds]
    and exponent [n]. *)
Definition positive_toString (d : digit) (ds : list digit) (n : Z) : string :=
  let all := d :: ds in
  let k := Z.of_nat (List.length all) in
  if (k <=? n) && (n <=? 21) then
    digits_string all ++ Str.repeat_char "0" (Z.to_nat (n - k))
  else if (0 <? n) && (n <=? 21) then
    digits_string (firstn (Z.to_nat n) all) ++ "." ++
    digits_string (skipn (Z.to_nat n) all)
  else if (-6 <? n) && (n <=? 0) then
    "0." ++ Str.repeat_char "0" (Z.to_nat (- n)) ++ digits_string all
  else
    let e := n - 1 in
    let sign := if e <? 0 then "-" else "+" in
    match ds with
    | [] => String (digit_char d) ("e" ++ sign ++ exponent_string (Z.abs e))
    | _ => String (digit_char d)
             ("." ++ digits_string ds ++ "e" ++ sign ++ exponent_string (Z.abs e))
    end.

(** [Number::toString(x, 10)]. *)
Definition Number_toString (x : number) : string :=
  match x with
  | NaN => "NaN"
  | Zero _ => "0"
  | Infinity negative => (if negative then "-" else "") ++ "Infinity"
  | Finite negative d ds n =>
      (if negative then "-" else "") ++ positive_toString d ds n
  end.

(** The largest time value, 8.64e15 ms. *)
Definition max_time : Z := 8640000000000000.

(** [TimeClip(x)] of ECMA-262, 21.4.1.31, with the truncation of
    [ToIntegerOrInfinity]; [None] stands for NaN. *)
Definition TimeClip (x : number) : option Z :=
  match x with
  | NaN | Infinity _ => None
  | Zero _ => Some 0
  | Finite negative d ds n =>
      let all := d :: ds in
      let k := Z.of_nat (List.length all) in
      if n <=? 0 then Some 0
      else
        let int := digits_value (firstn (Z.to_nat n) all) * 10 ^ (Z.max 0 (n - k)) in
        let frac := digits_value (skipn (Z.to_nat n) all) in
        if (max_time <? int) || ((int =? max_time) && negb (frac =? 0)) then None
        else Some (if negative then - int else int)
  end.

(** The literal [10.2]. *)
Definition ten_point_two : number := Finite false d1 [d0; d2] 2.

End Num.

(** ** Values, objects and [JSON.stringify] *)

Module Js.

(** The values a property of a transaction holds: the JSON scalars, and
    [undefined], which is also what reading an absent property gives. *)
Inductive value : Type :=
| VUndefined
| VNull
| VBool (b : bool)
| VNum (x : Num.number)
| VStr (s : string).

(** An ordinary object with string keys: its own enumerable properties in
    the order [OrdinaryOwnPropertyKeys] lists them, which for keys that are
    not array indices is the order of insertion. *)
Definition object : Type := list (string * value).

(** [o.key]: the property's value, [undefined] when there is none. *)
Fixpoint Get (o : object) (key : string) : value :=
  match o with
  | [] => VUndefined
  | (k, v) :: o' => if String.eqb k key then v else Get o' key
  end.

(** [o.key = v]: an existing property keeps its place, a new one goes last
    (for a key that is neither an array index, which would be enumerated
    before the others, nor [__proto__]; the code assigns [signature]). *)
Fixpoint Put (o : object) (key : string) (v : value) : object :=
  match o with
  | [] => [(key, v)]
  | (k, w) :: o' =>
      if String.eqb k key then (k, v) :: o' else (k, w) :: Put o' key v
  end.

(** The [rest] of [const { key, ...rest } = o]: the other properties, copied
    in order. *)
Definition rest_without (key : string) (o : object) : object :=
  filter (fun p => negb (String.eqb (fst p) key)) o.

Definition keys (o : object) : list string := map fst o.

(** Lower-case hexadecimal digit. *)
Definition hex_char (n : N) : ascii :=
  if (n <? 10)%N then ascii_of_N (48 + n) else ascii_of_N (87 + n).

(** What [QuoteJSONString] writes for one character. *)
Definition escape_char (c : ascii) : string :=
  let n := N_of_ascii c in
  let esc (x : ascii) := String Str.backslash (String x EmptyString) in
  if (n =? 8)%N then esc "b"%char
  else if (n =? 9)%N then esc "t"%char
  else if (n =? 10)%N then esc "n"%char
  else if (n =? 12)%N then esc "f"%char
  else if (n =? 13)%N then esc "r"%char
  else if (n =? 34)%N then esc Str.dquote
  else if (n =? 92)%N then esc Str.backslash
  else if (n <? 32)%N then
    String Str.backslash
      (String "u" (String "0" (String "0"
        (String (hex_char (n / 16)) (String (hex_char (n mod 16)) EmptyString)))))
  else String c EmptyString.

Fixpoint escape (s : string) : string :=
  match s with
  | EmptyString => EmptyString
  | String c s' => escape_char c ++ escape s'
  end.

(** [QuoteJSONString] (ECMA-262, 25.5.2.3). *)
Definition QuoteJSONString (s : string) : string :=
  String Str.dquote (escape s ++ String Str.dquote EmptyString).

(** [SerializeJSONProperty] on a scalar: [None] stands for [undefined], the
    property is then left out. *)
Definition SerializeJSONProperty (v : value) : option string :=
  match v with
  | VUndefined => None
  | VNull => Some "null"
  | VBool true => Some "true"
  | VBool false => Some "false"
  | VNum x => Some (if Num.isFinite x then Num.Number_toString x else "null")
  | VStr s => Some (QuoteJSONString s)
  end.

(** The members [SerializeJSONObject] collects, in enumeration order. *)
Fixpoint SerializeJSONObject_partial (o : object) : list string :=
  match o with
  | [] => []
  | (k, v) :: o' =>
      match SerializeJSONProperty v with
      | Some text => (QuoteJSONString k ++ ":" ++ text) :: SerializeJSONObject_partial o'
      | None => SerializeJSONObject_partial o'
      end
  end.

(** [JSON.stringify(o)] for an object [o], no replacer, no indentation. *)
Definition JSON_stringify (o : object) : string :=
  "{" ++ String.concat "," (SerializeJSONObject_partial o) ++ "}".

End Js.

(** ** Dates *)

Module JsDate.

Definition msPerDay : Z := 86400000.

(** Year, month (1 to 12) and day of the month of the day numbered [days]
    from 1970-01-01, in the proleptic Gregorian calendar ([YearFromTime],
    [MonthFromTime] and [DateFromTime] of ECMA-262, 21.4.1). *)
Definition civil_from_days (days : Z) : Z * Z * Z :=
  let z := days + 719468 in
  let era := z / 146097 in
  let doe := z - era * 146097 in
  let yoe := (doe - doe / 1460 + doe / 36524 - doe / 146096) / 365 in
  let doy := doe - (365 * yoe + yoe / 4 - yoe / 100) in
  let mp := (5 * doy + 2) / 153 in
  let d := doy - (153 * mp + 2) / 5 + 1 in
  let m := if mp <? 10 then mp + 3 else mp - 9 in
  let y := yoe + era * 400 + (if m <=? 2 then 1 else 0) in
  (y, m, d).

(** [Date.prototype.toISOString] of a date whose time value is [t]:
    [YYYY-MM-DDTHH:mm:ss.sssZ], the year on six signed digits outside
    0 to 9999. *)
Definition Date_toISOString (t : Z) : string :=
  let '(y, m, d) := civil_from_days (t / msPerDay) in
  let ms := t mod msPerDay in
  let year :=
    if (0 <=? y) && (y <=? 9999) then Str.pad 4 y
    else (if y <? 0 then "-" else "+") ++ Str.pad 6 (Z.abs y) in
  year ++ "-" ++ Str.pad 2 m ++ "-" ++ Str.pad 2 d ++ "T" ++
  Str.pad 2 (ms / 3600000) ++ ":" ++ Str.pad 2 (ms / 60000 mod 60) ++ ":" ++
  Str.pad 2 (ms / 1000 mod 60) ++ "." ++ Str.pad 3 (ms mod 1000) ++ "Z".

(** [a - b] on time values, [None] standing for NaN.  The difference is
    kept exact: where it exceeds 2^53 the Number that JavaScript computes is
    its rounding, which lies on the same side of every integer below 2^53. *)
Definition minus (a b : option Z) : option Z :=
  match a, b with
  | Some x, Some y => Some (x - y)
  | _, _ => None
  end.

(** [a >= b] for a number [a] that may be NaN: false on NaN. *)
Definition ge (a : option Z) (b : Z) : bool :=
  match a with
  | Some x => b <=? x
  | None => false
  end.

End JsDate.

(** ** Checks on strings, for the proofs about serialisation *)

Module Scan.

(** Every character, in code order. *)
Definition all_ascii : list ascii := map ascii_of_nat (seq 0 256).

(** [diverge a b]: at some position that both strings have, they differ. *)
Fixpoint diverge (a b : string) : bool :=
  match a, b with
  | String x a', String y b' => if Ascii.eqb x y then diverge a' b' else true
  | _, _ => false
  end.

Definition is_digit_char (c : ascii) : bool :=
  let n := N_of_ascii c in ((48 <=? n) && (n <=? 57))%N.

Fixpoint all_digits (s : string) : bool :=
  match s with
  | EmptyString => true
  | String c s' => is_digit_char c && all_digits s'
  end.

(** Distinct characters are escaped to texts that diverge, and no escape is
    empty: checked over all pairs of characters. *)
Definition escapes_diverge : bool :=
  forallb (fun c1 =>
    negb (String.eqb (Js.escape_char c1) "") &&
    forallb (fun c2 =>
      Ascii.eqb c1 c2 || diverge (Js.escape_char c1) (Js.escape_char c2))
      all_ascii) all_ascii.

End Scan.

(** ** Exceptions *)

Inductive error : Type :=
| TypeError      (* an argument of the wrong type *)
| CryptoError.   (* node:crypto rejected a key *)

(** How a call ends: it returns a value or throws. *)
Inductive completion (A : Type) : Type :=
| Return (a : A)
| Throw (e : error).

Arguments Return {A} a.
Arguments Throw {A} e.

(** ** Runs

    A run of a function of the repository is recorded as the calls it made
    to [node:crypto], in order, and the way it ended. *)

Definition Buffer : Type := string.

Inductive crypto_call : Type :=
| call_createSign (alg : string)
| call_createVerify (alg : string)
| call_update (chunk : string)
| call_sign (key : Buffer)
| call_verify (key signature : Buffer).

Record run (A : Type) : Type := Run { calls : list crypto_call; result : completion A }.

Arguments Run {A} calls result.
Arguments calls {A} r.
Arguments result {A} r.

Definition ret {A : Type} (a : A) : run A := Run [] (Return a).

Definition throw {A : Type} (e : error) : run A := Run [] (Throw e).

Definition bind {A B : Type} (m : run A) (k : A -> run B) : run B :=
  match result m with
  | Return a => Run (calls m ++ calls (k a)) (result (k a))
  | Throw e => Run (calls m) (Throw e)
  end.

Notation "x <- m ;; k" := (bind m (fun x => k))
  (at level 61, m at next level, right associativity).

(** ** The host

    What Node.js provides and the repository calls.  A [Buffer] is a byte
    string.  [crypto_sign] and [crypto_verify] are the signature primitive
    behind [Sign.sign] and [Verify.verify], on the digest algorithm's name,
    the PEM text of the key and the data fed by [update]; [None] means that
    the call throws (the key does not parse).  [Date_parse] is [Date.parse],
    [None] standing for NaN. *)

Class Runtime : Type := {
  Date_parse : string -> option Z;
  crypto_sign : string -> Buffer -> string -> option Buffer;
  crypto_verify : string -> Buffer -> string -> Buffer -> option bool;
  base64_encode : Buffer -> string;
  base64_decode : string -> Buffer
}.

(** [Buffer.from(s)] of a string, in UTF-8. *)
Definition Buffer_from (s : string) : Buffer := s.

(** The state of a [Sign] or [Verify] object: the algorithm it was created
    for and the data it was fed. *)
Record Hasher : Type := { algorithm : string; data : string }.

Definition createSign (alg : string) : run Hasher :=
  Run [call_createSign alg] (Return {| algorithm := alg; data := "" |}).

Definition createVerify (alg : string) : run Hasher :=
  Run [call_createVerify alg] (Return {| algorithm := alg; data := "" |}).

(** [h.update(chunk)], returning the object in its new state. *)
Definition update (h : Hasher) (chunk : string) : run Hasher :=
  Run [call_update chunk] (Return {| algorithm := algorithm h; data := data h ++ chunk |}).

Section Host.

Context {R : Runtime}.

(** [new Date(v)] as a time value: a string is parsed, anything else is
    converted to a number and clipped. *)
Definition Date_new (v : Js.value) : option Z :=
  match v with
  | Js.VStr s => Date_parse s
  | Js.VNum x => Num.TimeClip x
  | Js.VBool b => Some (if b then 1 else 0)
  | Js.VNull => Some 0
  | Js.VUndefined => None
  end.

(** [signer.sign(key, "base64")]. *)
Definition Sign_sign (signer : Hasher) (key : Buffer) : run string :=
  Run [call_sign key]
    match crypto_sign (algorithm signer) key (data signer) with
    | Some raw => Return (base64_encode raw)
    | None => Throw CryptoError
    end.

(** [Buffer.from(v, "base64")]: a string is decoded, a value of another
    scalar type is refused with a TypeError. *)
Definition Buffer_from_base64 (v : Js.value) : run Buffer :=
  match v with
  | Js.VStr s => ret (base64_decode s)
  | _ => throw TypeError
  end.

(** [verifier.verify(key, signature)]. *)
Definition Verify_verify (verifier : Hasher) (key signature : Buffer) : run bool :=
  Run [call_verify key signature]
    match crypto_verify (algorithm verifier) key (data verifier) signature with
    | Some b => Return b
    | None => Throw CryptoError
    end.

(** ** [src/encode.js] *)

Definition ALGORITHM : string := "sha256".

(** Lines 7 to 12: the object [createTransaction] builds, [clock] being the
    time value of [new Date()], which is always a valid date. *)
Definition transaction_value (clock : Z) : Js.object :=
  [ ("currency", Js.VStr "USD");
    ("amount", Js.VNum Num.ten_point_two);
    ("remark", Js.VStr "Payment for service");
    ("created_at", Js.VStr (JsDate.Date_toISOString clock)) ].

(** The three fields the function hardcodes. *)
Definition fixed_fields : Js.object :=
  [ ("currency", Js.VStr "USD");
    ("amount", Js.VNum Num.ten_point_two);
    ("remark", Js.VStr "Payment for service") ].

(** Lines 14 to 18: sign [value] and attach the signature to it. *)
Definition sign_value (value : Js.object) (privateKey : string) : run Js.object :=
  signer <- createSign ALGORITHM ;;
  signer <- update signer (Js.JSON_stringify value) ;;
  signature <- Sign_sign signer (Buffer_from privateKey) ;;
  ret (Js.Put value "signature" (Js.VStr signature)).

(** [createTransaction(privateKey)], run when the host clock reads [clock]. *)
Definition createTransaction (clock : Z) (privateKey : string) : run Js.object :=
  let value := transaction_value clock in
  sign_value value privateKey.

Definition maximumWindowMs : Z := 5 * 60 * 1000.

(** Lines 26 to 32: the condition of the freshness branch. *)
Definition window_exceeded (clock : Z) (value : Js.object) : bool :=
  let currentDate := Some clock in
  let created_at := Date_new (Js.Get value "created_at") in
  JsDate.ge (JsDate.minus currentDate created_at) maximumWindowMs.

(** Lines 36 to 39; the arguments are evaluated before the call. *)
Definition check_signature (verifier : Hasher) (publicKey : string) (signature : Js.value)
  : run bool :=
  let key := Buffer_from publicKey in
  sig <- Buffer_from_base64 signature ;;
  Verify_verify verifier key sig.

(** [verifyTransaction(transaction, publicKey)], run when the host clock
    reads [clock]. *)
Definition verifyTransaction (clock : Z) (transaction : Js.object) (publicKey : string)
  : run bool :=
  verifier <- createVerify ALGORITHM ;;
  let signature := Js.Get transaction "signature" in
  let value := Js.rest_without "signature" transaction in
  verifier <- update verifier (Js.JSON_stringify value) ;;
  if window_exceeded clock value then ret false
  else check_signature verifier publicKey signature.

(** What line 24 feeds the verifier: the serialisation of the transaction
    without its signature. *)
Definition signed_bytes (transaction : Js.object) : string :=
  Js.JSON_stringify (Js.rest_without "signature" transaction).

(** The verifier object when line 36 is reached. *)
Definition fed_verifier (transaction : Js.object) : Hasher :=
  {| algorithm := ALGORITHM; data := signed_bytes transaction |}.

(** ** The specification's vocabulary *)

Inductive VerificationOutcome : Type :=
| valid
| signature_invalid
| expired
| malformed_input.

Definition is_valid (o : VerificationOutcome) : bool :=
  match o with
  | valid => true
  | _ => false
  end.

(** The return statement a run of [verifyTransaction] leaves by, under the
    name the specification gives to that exit: the [false] of line 33 is
    [expired], the boolean of line 36 is [valid] or [signature_invalid].  No
    return statement stands for [malformed_input]. *)
Definition verification_outcome (clock : Z) (transaction : Js.object) (publicKey : string)
  : completion VerificationOutcome :=
  match result (verifyTransaction clock transaction publicKey) with
  | Return true => Return valid
  | Return false =>
      if window_exceeded clock (Js.rest_without "signature" transaction)
      then Return expired
      else Return signature_invalid
  | Throw e => Throw e
  end.

(** The signer as the specification words its contract (section 4.2), to be
    compared with [createTransaction]: it is handed the transaction, sets
    [created_at] to the current time if absent, signs and attaches. *)
Definition spec_sign (clock : Z) (transaction_without_signature : Js.object)
    (private_key : string) : run Js.object :=
  let t :=
    match Js.Get transaction_without_signature "created_at" with
    | Js.VUndefined =>
        Js.Put transaction_without_signature "created_at"
          (Js.VStr (JsDate.Date_toISOString clock))
    | _ => transaction_without_signature
    end in
  sign_value t private_key.

(** ** Assumptions on keys and codecs, stated where a theorem needs them *)

(** [priv] and [pub] are the two halves of one key pair: what [priv] signs,
    [pub] accepts. *)
Definition KeyPair (priv pub : string) : Prop :=
  forall alg msg, exists raw,
    crypto_sign alg (Buffer_from priv) msg = Some raw /\
    crypto_verify alg (Buffer_from pub) msg raw = Some true.

(** A signature made with [priv] is accepted by [pub] for no other data
    (signatures as ideal objects: no collisions, no forgery). *)
Definition Binding (priv pub : string) : Prop :=
  forall alg msg raw msg',
    crypto_sign alg (Buffer_from priv) msg = Some raw ->
    msg' <> msg ->
    crypto_verify alg (Buffer_from pub) msg' raw = Some false.

(** Decoding undoes encoding. *)
Definition Base64RoundTrip : Prop :=
  forall b : Buffer, base64_decode (base64_encode b) = b.

(** [transaction] carries a text signature that [pub] accepts for the bytes
    the verifier computes from it. *)
Definition ValidlySigned (transaction : Js.object) (pub : string) : Prop :=
  exists s,
    Js.Get transaction "signature" = Js.VStr s /\
    crypto_verify ALGORITHM (Buffer_from pub) (signed_bytes transaction)
      (base64_decode s) = Some true.

(** [node:crypto] can read [pub] as a key: verifying with it does not throw. *)
Definition AcceptedKey (pub : string) : Prop :=
  forall alg msg sig, crypto_verify alg (Buffer_from pub) msg sig <> None.

End Host.

(** ** The script at the end of [src/encode.js]

    Lines 42 to 50: the module reads the private key, signs, prints the
    transaction, reads the public key, verifies and prints the verdict.  A
    [readFile] whose promise rejects ends the module at its [await]; an
    exception thrown by either function ends it too. *)

Inductive console_entry : Type :=
| log_transaction (transaction : Js.object)
| log_isVerified (isVerified : bool).

Inductive script_end : Type :=
| script_done
| script_rejected (path : string)
| script_threw (e : error).

(** What a run of the script leaves: the lines it printed, the calls it made
    to [node:crypto], and how it ended. *)
Record script_run : Type :=
  Script { console : list console_entry; crypto : list crypto_call; ending : script_end }.

Section Script.

Context {R : Runtime}.

(** The module body.  [files path] is the text [readFile(path, "utf8")]
    resolves to, [None] when it rejects (the disk is taken not to change
    between the two reads); [clock_sign] and [clock_verify] are the clock
    readings the two functions take. *)
Definition main (files : string -> option string) (clock_sign clock_verify : Z)
  : script_run :=
  match files "private.pem" with
  | None => Script [] [] (script_rejected "private.pem")
  | Some privateKey =>
      let signing := createTransaction clock_sign privateKey in
      match result signing with
      | Throw e => Script [] (calls signing) (script_threw e)
      | Return transaction =>
          match files "public.pem" with
          | None =>
              Script [log_transaction transaction] (calls signing)
                (script_rejected "public.pem")
          | Some publicKey =>
              let verifying := verifyTransaction clock_verify transaction publicKey in
              match result verifying with
              | Throw e =>
                  Script [log_transaction transaction]
                    (calls signing ++ calls verifying) (script_threw e)
              | Return isVerified =>
                  Script [log_transaction transaction; log_isVerified isVerified]
                    (calls signing ++ calls verifying) script_done
              end
          end
      end
  end.

End Script.

(** ** [verifyTransaction] on any transaction

    The values above are the scalars.  A caller can hand
    [verifyTransaction] a plain object whose properties hold anything: a
    BigInt, an array, a nested or cyclic object, a Buffer, a function.  The
    function does three things with a property value: it serialises it
    (line 24), it makes a date of it (line 27), it reads it as a buffer
    (line 38); and [JSON.stringify] calls the property [toJSON] of the
    object it is given, when that is a function.  A value that is no scalar
    is therefore kept as what these conversions make of it. *)

(** A completion as a run that calls nothing. *)
Definition lift {A : Type} (c : completion A) : run A := Run [] c.

Module Wide.

Record conversions : Type := {
  (* SerializeJSONProperty: a text, nothing (the property is left out), or an exception *)
  to_JSON : completion (option string);
  (* new Date(v): a time value, NaN, or an exception *)
  to_Date : completion (option Z);
  (* Buffer.from(v, "base64"): the bytes, or an exception *)
  to_Buffer : completion Buffer;
  (* for a function: what JSON.stringify(o) gives when v is o.toJSON, a text,
     undefined or an exception; None for a value that cannot be called *)
  as_toJSON : option (completion (option string))
}.

Inductive value : Type :=
| scalar (v : Js.value)
| other (c : conversions).

(** An ordinary object with string keys and data properties, in
    enumeration order. *)
Definition object : Type := list (string * value).

(** The scalar object, as a transaction of this kind. *)
Definition embed (o : Js.object) : object :=
  map (fun p => (fst p, scalar (snd p))) o.

Fixpoint Get (o : object) (key : string) : value :=
  match o with
  | [] => scalar Js.VUndefined
  | (k, v) :: o' => if String.eqb k key then v else Get o' key
  end.

Definition rest_without (key : string) (o : object) : object :=
  filter (fun p => negb (String.eqb (fst p) key)) o.

Definition SerializeJSONProperty (v : value) : completion (option string) :=
  match v with
  | scalar s => Return (Js.SerializeJSONProperty s)
  | other c => to_JSON c
  end.

(** The members, property after property; the first exception ends it. *)
Fixpoint SerializeJSONObject_partial (o : object) : completion (list string) :=
  match o with
  | [] => Return []
  | (k, v) :: o' =>
      match SerializeJSONProperty v with
      | Throw e => Throw e
      | Return member =>
          match SerializeJSONObject_partial o' with
          | Throw e => Throw e
          | Return members =>
              Return match member with
                     | Some text => (Js.QuoteJSONString k ++ ":" ++ text) :: members
                     | None => members
                     end
          end
      end
  end.

(** The [toJSON] method of an object, if it has one. *)
Definition toJSON_method (v : value) : option (completion (option string)) :=
  match v with
  | scalar _ => None
  | other c => as_toJSON c
  end.

(** [JSON.stringify(o)]: a text, [undefined] ([None]), or an exception. *)
Definition JSON_stringify (o : object) : completion (option string) :=
  match toJSON_method (Get o "toJSON") with
  | Some outcome => outcome
  | None =>
      match SerializeJSONObject_partial o with
      | Return members => Return (Some ("{" ++ String.concat "," members ++ "}"))
      | Throw e => Throw e
      end
  end.

(** [h.update(data)]: [undefined] is refused with a TypeError, nothing is
    hashed. *)
Definition update (h : Hasher) (data : option string) : run Hasher :=
  match data with
  | Some chunk => update h chunk
  | None => throw TypeError
  end.

(** A BigInt: [JSON.stringify] does not know how to serialise it, [Date]
    cannot convert it to a number, [Buffer.from] refuses it; a TypeError
    each time. *)
Definition bigint : value :=
  other {| to_JSON := Throw TypeError; to_Date := Throw TypeError;
           to_Buffer := Throw TypeError; as_toJSON := None |}.

(** The decimal text of a byte. *)
Definition byte_text (c : ascii) : string :=
  NilZero.string_of_uint (N.to_uint (N_of_ascii c)).

Fixpoint bytes_texts (b : Buffer) : list string :=
  match b with
  | EmptyString => []
  | String c b' => byte_text c :: bytes_texts b'
  end.

Section Host.

Context {R : Runtime}.

(** An array of the numbers 0 to 255 that are the bytes of [b]:
    serialised in brackets, made a date of through its [toString], read by
    [Buffer.from] as those bytes. *)
Definition byte_array (b : Buffer) : value :=
  other {| to_JSON := Return (Some ("[" ++ String.concat "," (bytes_texts b) ++ "]"));
           to_Date := Return (Date_parse (String.concat "," (bytes_texts b)));
           to_Buffer := Return b;
           as_toJSON := None |}.

(** A function, given by its source text and by what [JSON.stringify]
    gives when it calls it as [toJSON].  As a property value it is left out
    of the serialisation; [new Date] parses its source text; [Buffer.from]
    refuses it. *)
Definition method (source : string) (outcome : completion (option string)) : value :=
  other {| to_JSON := Return None;
           to_Date := Return (Date_parse source);
           to_Buffer := Throw TypeError;
           as_toJSON := Some outcome |}.

Definition Date_new (v : value) : completion (option Z) :=
  match v with
  | scalar s => Return (Date_new s)
  | other c => to_Date c
  end.

Definition Buffer_from_base64 (v : value) : run Buffer :=
  match v with
  | scalar s => Buffer_from_base64 s
  | other c => lift (to_Buffer c)
  end.

(** [verifyTransaction(transaction, publicKey)], statement by statement. *)
Definition verifyTransaction (clock : Z) (transaction : object) (publicKey : string)
  : run bool :=
  verifier <- createVerify ALGORITHM ;;
  let signature := Get transaction "signature" in
  let value := rest_without "signature" transaction in
  text <- lift (JSON_stringify value) ;;
  verifier <- update verifier text ;;
  let currentDate := Some clock in
  created_at <- lift (Date_new (Get value "created_at")) ;;
  if JsDate.ge (JsDate.minus currentDate created_at) maximumWindowMs then ret false
  else
    let key := Buffer_from publicKey in
    sig <- Buffer_from_base64 signature ;;
    Verify_verify verifier key sig.

(** The condition of line 32, false when line 27 throws. *)
Definition window_exceeded (clock : Z) (value : object) : bool :=
  match Date_new (Get value "created_at") with
  | Return created_at => JsDate.ge (JsDate.minus (Some clock) created_at) maximumWindowMs
  | Throw _ => false
  end.

(** The exit of a run, in the specification's words (see
    [verification_outcome] above). *)
Definition verification_outcome (clock : Z) (transaction : object) (publicKey : string)
  : completion VerificationOutcome :=
  match result (verifyTransaction clock transaction publicKey) with
  | Return true => Return valid
  | Return false =>
      if window_exceeded clock (rest_without "signature" transaction)
      then Return expired
      else Return signature_invalid
  | Throw e => Throw e
  end.

End Host.

End Wide.

(** ** A small runtime to run the model on

    Dates are parsed in the format [toISOString] writes and in no other; a
    key is any non-empty text and is its own public half; a signature is the
    key, the algorithm and the data written one after the other; the base64
    codec is the identity. *)

Module Sample.

Definition digit_of_char (c : ascii) : option Z :=
  let n := Z.of_N (N_of_ascii c) in
  if (48 <=? n) && (n <=? 57) then Some (n - 48) else None.

(** The number written by a string of decimal digits. *)
Fixpoint number_of_digits (acc : Z) (s : string) : option Z :=
  match s with
  | EmptyString => Some acc
  | String c s' =>
      match digit_of_char c with
      | Some d => number_of_digits (10 * acc + d) s'
      | None => None
      end
  end.

Definition field (start len : nat) (s : string) : option Z :=
  number_of_digits 0 (String.substring start len s).

(** Days from 1970-01-01 to the given day of the proleptic Gregorian
    calendar. *)
Definition days_from_civil (y m d : Z) : Z :=
  let y' := if m <=? 2 then y - 1 else y in
  let era := y' / 400 in
  let yoe := y' - era * 400 in
  let doy := (153 * (if 2 <? m then m - 3 else m + 9) + 2) / 5 + d - 1 in
  let doe := yoe * 365 + yoe / 4 - yoe / 100 + doy in
  era * 146097 + doe - 719468.

Definition separators_ok (s : string) : bool :=
  String.eqb (String.substring 4 1 s) "-" && String.eqb (String.substring 7 1 s) "-" &&
  String.eqb (String.substring 10 1 s) "T" && String.eqb (String.substring 13 1 s) ":" &&
  String.eqb (String.substring 16 1 s) ":" && String.eqb (String.substring 19 1 s) "." &&
  String.eqb (String.substring 23 1 s) "Z".

(** [YYYY-MM-DDTHH:mm:ss.sssZ] to a time value. *)
Definition parse (s : string) : option Z :=
  if Nat.eqb (String.length s) 24 && separators_ok s then
    match field 0 4 s, field 5 2 s, field 8 2 s,
          field 11 2 s, field 14 2 s, field 17 2 s, field 20 3 s with
    | Some y, Some m, Some d, Some h, Some mi, Some sec, Some ms =>
        if (1 <=? m) && (m <=? 12) && (1 <=? d) && (d <=? 31) &&
           (h <=? 23) && (mi <=? 59) && (sec <=? 59)
        then Some (days_from_civil y m d * JsDate.msPerDay
                   + h * 3600000 + mi * 60000 + sec * 1000 + ms)
        else None
    | _, _, _, _, _, _, _ => None
    end
  else None.

Definition tag (alg : string) (key : Buffer) (msg : string) : Buffer :=
  key ++ "/" ++ alg ++ "/" ++ msg.

Definition sign (alg : string) (key : Buffer) (msg : string) : option Buffer :=
  if String.eqb key "" then None else Some (tag alg key msg).

Definition verify (alg : string) (key : Buffer) (msg : string) (signature : Buffer)
  : option bool :=
  if String.eqb key "" then None else Some (String.eqb signature (tag alg key msg)).

Definition runtime : Runtime :=
  {| Date_parse := parse;
     crypto_sign := sign;
     crypto_verify := verify;
     base64_encode := fun b => b;
     base64_decode := fun s => s |}.

(** The clock reading of the README's first example,
    2024-11-18T07:13:42.582Z. *)
Definition t0 : Z := 1731914022582.

(** A transaction a caller may want signed: other fields, and a date of
    its own. *)
Definition euro_transaction : Js.object :=
  [ ("currency", Js.VStr "EUR");
    ("amount", Js.VNum (Num.Finite false Num.d5 [] 1));
    ("remark", Js.VStr "Refund");
    ("created_at", Js.VStr "2020-01-01T00:00:00.000Z") ].

(** What [createTransaction] returns at [t0] for the key [K1]. *)
Definition signed_t0 : Js.object :=
  (transaction_value t0 ++
   [("signature",
     Js.VStr (tag ALGORITHM "K1" (Js.JSON_stringify (transaction_value t0))))])%list.

(** [signed_t0] dated ten minutes earlier, the signature left as it was. *)
Definition backdated : Js.object :=
  Js.Put signed_t0 "created_at" (Js.VStr "2024-11-18T07:03:42.582Z").

(** [signed_t0] dated one hour later and signed again. *)
Definition postdated : Js.object :=
  let value :=
    Js.Put (transaction_value t0) "created_at" (Js.VStr "2024-11-18T08:13:42.582Z") in
  (value ++ [("signature", Js.VStr (tag ALGORITHM "K1" (Js.JSON_stringify value)))])%list.

(** The fields of [transaction_value t0], [amount] written first. *)
Definition amount_first : Js.object :=
  [ ("amount", Js.VNum Num.ten_point_two);
    ("currency", Js.VStr "USD");
    ("remark", Js.VStr "Payment for service");
    ("created_at", Js.VStr "2024-11-18T07:13:42.582Z") ].

(** A disk that holds the key [K1] in both key files. *)
Definition files (path : string) : option string :=
  if String.eqb path "private.pem" then Some "K1"
  else if String.eqb path "public.pem" then Some "K1"
  else None.

(** The three hardcoded fields signed with [K1], with no date. *)
Definition undated : Js.object :=
  (fixed_fields ++
   [("signature", Js.VStr (tag ALGORITHM "K1" (Js.JSON_stringify fixed_fields)))])%list.

(** The signature of [signed_t0], as bytes. *)
Definition raw_t0 : Buffer :=
  tag ALGORITHM "K1" (Js.JSON_stringify (transaction_value t0)).

(** [signed_t0] with one more property, a BigInt. *)
Definition with_bigint : Wide.object :=
  (Wide.embed signed_t0 ++ [("nonce", Wide.bigint)])%list.

(** The transaction signed at [t0], its signature replaced by a BigInt. *)
Definition bigint_signature : Wide.object :=
  (Wide.embed (transaction_value t0) ++ [("signature", Wide.bigint)])%list.

(** The transaction signed at [t0], its signature given as the array of
    its bytes. *)
Definition array_signature : Wide.object :=
  (Wide.embed (transaction_value t0)
   ++ [("signature", Wide.byte_array (R := runtime) raw_t0)])%list.

(** [signed_t0] with a [toJSON] method that returns nothing. *)
Definition with_toJSON : Wide.object :=
  (Wide.embed signed_t0
   ++ [("toJSON", Wide.method (R := runtime) "() => undefined" (Return None))])%list.

(** A transaction with no field but a signature by [K1] of the text [{}],
    and a [toJSON] method that returns an empty object. *)
Definition speaks_for_itself : Wide.object :=
  [ ("signature", Wide.scalar (Js.VStr (tag ALGORITHM "K1" "{}")));
    ("toJSON", Wide.method (R := runtime) "() => ({})" (Return (Some "{}"))) ].

End Sample.


(** * Part II: properties *)

(** ** Strings *)

Lemma append_nil_r (s : string) : s ++ "" = s.
Proof. induction s as [|c s IH]; simpl; [reflexivity | now rewrite IH]. Qed.

Lemma append_assoc (a b c : string) : (a ++ b) ++ c = a ++ (b ++ c).
Proof. induction a as [|x a IH]; simpl; [reflexivity | now rewrite IH]. Qed.

Lemma length_append (a b : string) :
  String.length (a ++ b) = (String.length a + String.length b)%nat.
Proof. induction a as [|x a IH]; simpl; [reflexivity | now rewrite IH]. Qed.

Lemma append_inv_head (a b c : string) : a ++ b = a ++ c -> b = c.
Proof.
  induction a as [|x a IH]; simpl; intros H; [exact H|].
  injection H as H. now apply IH.
Qed.

Lemma append_inv_tail (a b c : string) : a ++ c = b ++ c -> a = b.
Proof.
  revert b; induction a as [|x a IH]; intros [|y b] H; simpl in *.
  - reflexivity.
  - apply (f_equal String.length) in H. simpl in H.
    rewrite length_append in H. lia.
  - apply (f_equal String.length) in H. simpl in H.
    rewrite length_append in H. lia.
  - injection H as Hxy H. subst y. f_equal. now apply IH.
Qed.

Lemma dquote_bits : Str.dquote = Ascii false true false false false true false false.
Proof. reflexivity. Qed.

Lemma in_all_ascii (c : ascii) : In c Scan.all_ascii.
Proof.
  unfold Scan.all_ascii. rewrite <- (ascii_nat_embedding c).
  apply in_map, in_seq. pose proof (nat_ascii_bounded c). lia.
Qed.

Lemma diverge_append (a b r1 r2 : string) :
  Scan.diverge a b = true -> a ++ r1 <> b ++ r2.
Proof.
  revert b; induction a as [|x a IH]; intros [|y b]; simpl; try discriminate.
  destruct (Ascii.eqb_spec x y) as [->|Hne]; intros Hd H; injection H as H.
  - now apply (IH b).
  - intros. congruence.
Qed.

Lemma escapes_diverge_checked : Scan.escapes_diverge = true.
Proof. vm_compute. reflexivity. Qed.

Lemma escape_char_nonempty (c : ascii) : Js.escape_char c <> "".
Proof.
  pose proof escapes_diverge_checked as H. unfold Scan.escapes_diverge in H.
  rewrite forallb_forall in H. specialize (H c (in_all_ascii c)).
  apply andb_prop in H as [H _]. apply negb_true_iff in H.
  now apply String.eqb_neq.
Qed.

Lemma escape_char_diverge (c1 c2 : ascii) :
  c1 <> c2 -> Scan.diverge (Js.escape_char c1) (Js.escape_char c2) = true.
Proof.
  intros Hne. pose proof escapes_diverge_checked as H. unfold Scan.escapes_diverge in H.
  rewrite forallb_forall in H. specialize (H c1 (in_all_ascii c1)).
  apply andb_prop in H as [_ H].
  rewrite forallb_forall in H. specialize (H c2 (in_all_ascii c2)).
  apply orb_prop in H as [H|H]; [|exact H].
  now apply Ascii.eqb_eq in H.
Qed.

(** Escaping loses nothing. *)
Lemma escape_inj (s1 s2 : string) : Js.escape s1 = Js.escape s2 -> s1 = s2.
Proof.
  revert s2; induction s1 as [|c1 s1 IH]; intros [|c2 s2]; simpl; intros H.
  - reflexivity.
  - exfalso. destruct (Js.escape_char c2) eqn:E; [now apply escape_char_nonempty in E|].
    discriminate H.
  - exfalso. destruct (Js.escape_char c1) eqn:E; [now apply escape_char_nonempty in E|].
    discriminate H.
  - destruct (ascii_dec c1 c2) as [->|Hne].
    + f_equal. apply IH. now apply append_inv_head in H.
    + exfalso. now apply (diverge_append _ _ _ _ (escape_char_diverge c1 c2 Hne)) in H.
Qed.

Lemma QuoteJSONString_inj (s1 s2 : string) :
  Js.QuoteJSONString s1 = Js.QuoteJSONString s2 -> s1 = s2.
Proof.
  unfold Js.QuoteJSONString. intros H. injection H as H.
  apply append_inv_tail in H. now apply escape_inj.
Qed.

(** ** Objects *)

Lemma Get_rest_without_other (key k : string) (o : Js.object) :
  k <> key -> Js.Get (Js.rest_without key o) k = Js.Get o k.
Proof.
  intros Hk. induction o as [|[k0 v0] o IH]; simpl; [reflexivity|].
  destruct (String.eqb_spec k0 key) as [->|Hne]; simpl.
  - destruct (String.eqb_spec key k); [congruence | exact IH].
  - destruct (String.eqb_spec k0 k); [reflexivity | exact IH].
Qed.

Lemma rest_without_fresh (key : string) (o : Js.object) :
  ~ In key (Js.keys o) -> Js.rest_without key o = o.
Proof.
  induction o as [|[k0 v0] o IH]; simpl; intros Hin; [reflexivity|].
  destruct (String.eqb_spec k0 key) as [->|Hne]; simpl.
  - exfalso. apply Hin. now left.
  - f_equal. apply IH. intros H. apply Hin. now right.
Qed.

Lemma rest_without_app (key : string) (a b : Js.object) :
  Js.rest_without key (a ++ b)%list
  = (Js.rest_without key a ++ Js.rest_without key b)%list.
Proof. unfold Js.rest_without. apply filter_app. Qed.

Lemma Put_fresh (key : string) (v : Js.value) (o : Js.object) :
  ~ In key (Js.keys o) -> Js.Put o key v = (o ++ [(key, v)])%list.
Proof.
  induction o as [|[k0 v0] o IH]; simpl; intros Hin; [reflexivity|].
  destruct (String.eqb_spec k0 key) as [->|Hne].
  - exfalso. apply Hin. now left.
  - f_equal. apply IH. intros H. apply Hin. now right.
Qed.

Lemma Get_Put_same (key : string) (v : Js.value) (o : Js.object) :
  Js.Get (Js.Put o key v) key = v.
Proof.
  induction o as [|[k0 v0] o IH]; simpl.
  - now rewrite String.eqb_refl.
  - destruct (String.eqb_spec k0 key) as [->|Hne]; simpl.
    + now rewrite String.eqb_refl.
    + destruct (String.eqb_spec k0 key); [congruence | exact IH].
Qed.

Lemma Get_Put_other (key k : string) (v : Js.value) (o : Js.object) :
  k <> key -> Js.Get (Js.Put o key v) k = Js.Get o k.
Proof.
  intros Hk. induction o as [|[k0 v0] o IH]; simpl.
  - destruct (String.eqb_spec key k); [congruence | reflexivity].
  - destruct (String.eqb_spec k0 key) as [->|Hne]; simpl.
    + destruct (String.eqb_spec key k); [congruence | reflexivity].
    + destruct (String.eqb_spec k0 k); [reflexivity | exact IH].
Qed.

Lemma rest_without_Put_same (key : string) (v : Js.value) (o : Js.object) :
  Js.rest_without key (Js.Put o key v) = Js.rest_without key o.
Proof.
  induction o as [|[k0 v0] o IH]; simpl.
  - now rewrite String.eqb_refl.
  - destruct (String.eqb_spec k0 key) as [->|Hne]; simpl.
    + now rewrite String.eqb_refl.
    + destruct (String.eqb_spec k0 key); [congruence|]. simpl. now rewrite IH.
Qed.

(** Attaching a signature to an object that has none and stripping it again
    gives the object back. *)
Lemma rest_without_Put_fresh (key : string) (v : Js.value) (o : Js.object) :
  ~ In key (Js.keys o) -> Js.rest_without key (Js.Put o key v) = o.
Proof.
  intros H. rewrite rest_without_Put_same. now apply rest_without_fresh.
Qed.

Lemma transaction_value_unsigned (clock : Z) :
  ~ In "signature" (Js.keys (transaction_value clock)).
Proof.
  simpl. intros [H|[H|[H|[H|[]]]]]; discriminate H.
Qed.

(** ** The two functions, step by step *)

Section Verification.

Context {R : Runtime}.

Lemma verifyTransaction_result (clock : Z) (transaction : Js.object) (pub : string) :
  result (verifyTransaction clock transaction pub) =
  if window_exceeded clock (Js.rest_without "signature" transaction)
  then Return false
  else result (check_signature (fed_verifier transaction) pub
                 (Js.Get transaction "signature")).
Proof.
  unfold verifyTransaction, bind. cbn [createVerify update result calls].
  destruct (window_exceeded clock _); reflexivity.
Qed.

Lemma verifyTransaction_calls (clock : Z) (transaction : Js.object) (pub : string) :
  calls (verifyTransaction clock transaction pub) =
  call_createVerify ALGORITHM :: call_update (signed_bytes transaction) ::
  (if window_exceeded clock (Js.rest_without "signature" transaction)
   then []
   else calls (check_signature (fed_verifier transaction) pub
                 (Js.Get transaction "signature"))).
Proof.
  unfold verifyTransaction, bind. cbn [createVerify update result calls].
  destruct (window_exceeded clock _); reflexivity.
Qed.

Lemma check_signature_text (verifier : Hasher) (pub s : string) :
  check_signature verifier pub (Js.VStr s) =
  Run [call_verify (Buffer_from pub) (base64_decode s)]
    match crypto_verify (algorithm verifier) (Buffer_from pub) (data verifier)
            (base64_decode s) with
    | Some b => Return b
    | None => Throw CryptoError
    end.
Proof. reflexivity. Qed.

Lemma check_signature_not_text (verifier : Hasher) (pub : string) (v : Js.value) :
  (forall s, v <> Js.VStr s) ->
  check_signature verifier pub v = Run [] (Throw TypeError).
Proof. intros H. destruct v; try reflexivity. now destruct (H s). Qed.

(** The boolean returned is the outcome read as "valid or not". *)
Lemma verifyTransaction_outcome (clock : Z) (transaction : Js.object) (pub : string) :
  result (verifyTransaction clock transaction pub) =
  match verification_outcome clock transaction pub with
  | Return o => Return (is_valid o)
  | Throw e => Throw e
  end.
Proof.
  unfold verification_outcome.
  destruct (result (verifyTransaction clock transaction pub)) as [[|]|e];
    try reflexivity.
  now destruct (window_exceeded clock _).
Qed.

Lemma outcome_result (clock : Z) (transaction : Js.object) (pub : string)
    (o : VerificationOutcome) :
  verification_outcome clock transaction pub = Return o ->
  result (verifyTransaction clock transaction pub) = Return (is_valid o).
Proof. intros H. now rewrite verifyTransaction_outcome, H. Qed.

Lemma outcome_expired (clock : Z) (transaction : Js.object) (pub : string) :
  window_exceeded clock (Js.rest_without "signature" transaction) = true ->
  verification_outcome clock transaction pub = Return expired.
Proof.
  intros H. unfold verification_outcome. now rewrite verifyTransaction_result, H.
Qed.

Lemma window_exceeded_parsed (clock created_at : Z) (transaction : Js.object) :
  Date_new (Js.Get transaction "created_at") = Some created_at ->
  window_exceeded clock (Js.rest_without "signature" transaction)
  = (maximumWindowMs <=? clock - created_at).
Proof.
  intros H. unfold window_exceeded.
  rewrite Get_rest_without_other by discriminate. now rewrite H.
Qed.

Lemma window_exceeded_unparsed (clock : Z) (transaction : Js.object) :
  Date_new (Js.Get transaction "created_at") = None ->
  window_exceeded clock (Js.rest_without "signature" transaction) = false.
Proof.
  intros H. unfold window_exceeded.
  rewrite Get_rest_without_other by discriminate. now rewrite H.
Qed.

Lemma check_signature_valid (transaction : Js.object) (pub : string) :
  ValidlySigned transaction pub ->
  result (check_signature (fed_verifier transaction) pub (Js.Get transaction "signature"))
  = Return true.
Proof.
  intros (s & Hs & Hv). rewrite Hs, check_signature_text.
  cbn [result fed_verifier algorithm data]. now rewrite Hv.
Qed.

(** What [sign_value] does when the key signs. *)
Lemma sign_value_returns (value : Js.object) (priv : string) (raw : Buffer) :
  crypto_sign ALGORITHM (Buffer_from priv) (Js.JSON_stringify value) = Some raw ->
  sign_value value priv
  = Run [call_createSign ALGORITHM; call_update (Js.JSON_stringify value);
         call_sign (Buffer_from priv)]
      (Return (Js.Put value "signature" (Js.VStr (base64_encode raw)))).
Proof.
  intros H. unfold sign_value, bind, Sign_sign.
  cbn [createSign update result calls algorithm data append]. rewrite H. reflexivity.
Qed.

Lemma sign_value_inv (value signed : Js.object) (priv : string) :
  result (sign_value value priv) = Return signed ->
  exists raw,
    crypto_sign ALGORITHM (Buffer_from priv) (Js.JSON_stringify value) = Some raw /\
    signed = Js.Put value "signature" (Js.VStr (base64_encode raw)).
Proof.
  destruct (crypto_sign ALGORITHM (Buffer_from priv) (Js.JSON_stringify value))
    as [raw|] eqn:Hs.
  - rewrite (sign_value_returns _ _ _ Hs). cbn [result]. intros [= <-].
    now exists raw.
  - unfold sign_value, bind, Sign_sign.
    cbn [createSign update result calls algorithm data append]. rewrite Hs.
    discriminate.
Qed.

(** The verifier hashes what the signer hashed. *)
Lemma signed_bytes_of_signed (value : Js.object) (sig : Js.value) :
  ~ In "signature" (Js.keys value) ->
  signed_bytes (Js.Put value "signature" sig) = Js.JSON_stringify value.
Proof.
  intros H. unfold signed_bytes. now rewrite rest_without_Put_fresh.
Qed.

(** Signing any object that has no signature yet and a readable date, then
    verifying inside the window, succeeds. *)
Lemma signed_value_verifies (clock created_at : Z) (value : Js.object) (priv pub : string) :
  KeyPair priv pub -> Base64RoundTrip ->
  ~ In "signature" (Js.keys value) ->
  Date_new (Js.Get value "created_at") = Some created_at ->
  clock - created_at < maximumWindowMs ->
  exists signed,
    result (sign_value value priv) = Return signed /\
    result (verifyTransaction clock signed pub) = Return true.
Proof.
  intros Hkeys Hb64 Hfresh Hdate Hwin.
  destruct (Hkeys ALGORITHM (Js.JSON_stringify value)) as (raw & Hs & Hv).
  eexists. split; [now rewrite (sign_value_returns _ _ _ Hs)|].
  rewrite verifyTransaction_result.
  rewrite rest_without_Put_fresh by assumption.
  unfold window_exceeded. rewrite Hdate. simpl.
  destruct (Z.leb_spec maximumWindowMs (clock - created_at)) as [Hle|_]; [lia|].
  rewrite Get_Put_same, check_signature_text.
  cbn [result fed_verifier algorithm data].
  rewrite signed_bytes_of_signed, Hb64 by assumption. now rewrite Hv.
Qed.

(** C1. Round trip: the object [createTransaction] returns for the private
    half of a key pair verifies as true, with outcome [valid], under the
    public half at every clock reading less than [maximumWindowMs] after
    the reading it was created at. *)
Theorem round_trip_validity (clock_sign clock_verify : Z) (priv pub : string) :
  KeyPair priv pub -> Base64RoundTrip ->
  Date_parse (JsDate.Date_toISOString clock_sign) = Some clock_sign ->
  clock_verify - clock_sign < maximumWindowMs ->
  exists signed,
    result (createTransaction clock_sign priv) = Return signed /\
    result (verifyTransaction clock_verify signed pub) = Return true /\
    verification_outcome clock_verify signed pub = Return valid.
Proof.
  intros Hkeys Hb64 Hdate Hwin.
  destruct (signed_value_verifies clock_verify clock_sign (transaction_value clock_sign)
              priv pub Hkeys Hb64 (transaction_value_unsigned _)) as (signed & Hs & Hv).
  - exact Hdate.
  - exact Hwin.
  - exists signed. split; [exact Hs|]. split; [exact Hv|].
    unfold verification_outcome. now rewrite Hv.
Qed.

(** C2. The signature is outside the bytes it signs.  In the run that
    returns [signed], the signer is fed the serialisation of the four
    fields, made before the signature is attached as a fifth property;
    stripping [signature] from [signed] gives the four-field object back;
    and every run of the verifier on [signed] feeds it those same bytes. *)
Theorem signature_excluded_from_signed_bytes (clock : Z) (priv : string) (signed : Js.object) :
  result (createTransaction clock priv) = Return signed ->
  Js.keys (transaction_value clock) = ["currency"; "amount"; "remark"; "created_at"] /\
  calls (createTransaction clock priv)
  = [call_createSign ALGORITHM;
     call_update (Js.JSON_stringify (transaction_value clock));
     call_sign (Buffer_from priv)] /\
  (exists sig, signed = (transaction_value clock ++ [("signature", Js.VStr sig)])%list) /\
  Js.rest_without "signature" signed = transaction_value clock /\
  forall clock' pub, exists then_,
    calls (verifyTransaction clock' signed pub)
    = call_createVerify ALGORITHM
      :: call_update (Js.JSON_stringify (transaction_value clock)) :: then_.
Proof.
  intros H. apply sign_value_inv in H as (raw & Hraw & ->).
  pose proof (transaction_value_unsigned clock) as Hfresh.
  split; [reflexivity|]. split; [|split; [|split]].
  - unfold createTransaction. now rewrite (sign_value_returns _ _ _ Hraw).
  - exists (base64_encode raw). now apply Put_fresh.
  - now apply rest_without_Put_fresh.
  - intros clock' pub. eexists. rewrite verifyTransaction_calls.
    rewrite signed_bytes_of_signed by assumption. reflexivity.
Qed.

(** C3. Expiry, boundary included.  For a transaction whose date reads as
    [created_at] and whose signature [pub] accepts: while the clock is less
    than [maximumWindowMs] past [created_at] the result is true (outcome
    [valid]); from exactly [maximumWindowMs] on it is false, by the
    freshness branch (outcome [expired]). *)
Theorem expiry_boundary_inclusive (clock created_at : Z) (transaction : Js.object)
    (pub : string) :
  Date_new (Js.Get transaction "created_at") = Some created_at ->
  ValidlySigned transaction pub ->
  (clock - created_at < maximumWindowMs ->
     result (verifyTransaction clock transaction pub) = Return true /\
     verification_outcome clock transaction pub = Return valid) /\
  (clock - created_at >= maximumWindowMs ->
     result (verifyTransaction clock transaction pub) = Return false /\
     verification_outcome clock transaction pub = Return expired).
Proof.
  intros Hdate Hsig. split; intros Hwin.
  - assert (Hr : result (verifyTransaction clock transaction pub) = Return true).
    { rewrite verifyTransaction_result, (window_exceeded_parsed _ _ _ Hdate).
      destruct (Z.leb_spec maximumWindowMs (clock - created_at)); [lia|].
      now apply check_signature_valid. }
    split; [exact Hr|]. unfold verification_outcome. now rewrite Hr.
  - assert (Hw : window_exceeded clock (Js.rest_without "signature" transaction) = true).
    { rewrite (window_exceeded_parsed _ _ _ Hdate).
      destruct (Z.leb_spec maximumWindowMs (clock - created_at)); [reflexivity|lia]. }
    pose proof (outcome_expired _ _ pub Hw) as Ho.
    split; [apply (outcome_result _ _ _ _ Ho) | exact Ho].
Qed.

(** C10. No lower bound on freshness.  When the date of the transaction
    lies after the clock reading, however far, the freshness branch is not
    taken and the run ends as the signature check ends; a transaction that
    [pub] accepts verifies as true. *)
Theorem future_dated_decided_by_signature (clock created_at : Z)
    (transaction : Js.object) (pub : string) :
  Date_new (Js.Get transaction "created_at") = Some created_at ->
  clock < created_at ->
  window_exceeded clock (Js.rest_without "signature" transaction) = false /\
  result (verifyTransaction clock transaction pub)
  = result (check_signature (fed_verifier transaction) pub
              (Js.Get transaction "signature")) /\
  (ValidlySigned transaction pub ->
   result (verifyTransaction clock transaction pub) = Return true).
Proof.
  intros Hdate Hfuture.
  assert (Hw : window_exceeded clock (Js.rest_without "signature" transaction) = false).
  { rewrite (window_exceeded_parsed _ _ _ Hdate). unfold maximumWindowMs.
    destruct (Z.leb_spec (5 * 60 * 1000) (clock - created_at)); [lia|reflexivity]. }
  split; [exact Hw|].
  assert (He : result (verifyTransaction clock transaction pub)
               = result (check_signature (fed_verifier transaction) pub
                           (Js.Get transaction "signature"))).
  { now rewrite verifyTransaction_result, Hw. }
  split; [exact He|].
  intros Hsig. rewrite He. now apply check_signature_valid.
Qed.

(** C5, as the code has it.  The run depends on the transaction, the
    public key and the host clock, and on the clock only through the
    comparison of the elapsed time with the literal [5 * 60 * 1000]: two
    runs on the same transaction and key whose clock readings fall on the
    same side of that bound (two runs at one reading, for one) make the same
    calls and end the same way. *)
Theorem verification_determined_by_clock_side (clock1 clock2 : Z)
    (transaction : Js.object) (pub : string) :
  (forall created_at,
     Date_new (Js.Get transaction "created_at") = Some created_at ->
     (clock1 - created_at >= 5 * 60 * 1000 <-> clock2 - created_at >= 5 * 60 * 1000)) ->
  verifyTransaction clock1 transaction pub = verifyTransaction clock2 transaction pub.
Proof.
  intros H.
  assert (Hw : window_exceeded clock1 (Js.rest_without "signature" transaction)
               = window_exceeded clock2 (Js.rest_without "signature" transaction)).
  { destruct (Date_new (Js.Get transaction "created_at")) as [c|] eqn:Hdate.
    - rewrite !(window_exceeded_parsed _ c) by assumption.
      specialize (H c eq_refl). unfold maximumWindowMs.
      destruct (Z.leb_spec (5 * 60 * 1000) (clock1 - c)),
               (Z.leb_spec (5 * 60 * 1000) (clock2 - c)); try reflexivity; lia.
    - now rewrite !window_exceeded_unparsed. }
  unfold verifyTransaction. now rewrite Hw.
Qed.

(** C6, as the code has it.  The signer is handed the private key and
    nothing else.  What it does is what the specified signer does on the
    three hardcoded fields with no date: the result has those fields, then
    [created_at] set to the clock reading (always), then the signature; the
    only exception it can raise is the one for an unreadable key. *)
Theorem createTransaction_signs_fixed_fields (clock : Z) (priv : string) :
  createTransaction clock priv = spec_sign clock fixed_fields priv /\
  match result (createTransaction clock priv) with
  | Return signed =>
      Js.keys signed = ["currency"; "amount"; "remark"; "created_at"; "signature"] /\
      Js.Get signed "currency" = Js.VStr "USD" /\
      Js.Get signed "amount" = Js.VNum Num.ten_point_two /\
      Js.Get signed "remark" = Js.VStr "Payment for service" /\
      Js.Get signed "created_at" = Js.VStr (JsDate.Date_toISOString clock) /\
      exists sig, Js.Get signed "signature" = Js.VStr sig
  | Throw e => e = CryptoError
  end.
Proof.
  split; [reflexivity|].
  destruct (crypto_sign ALGORITHM (Buffer_from priv)
              (Js.JSON_stringify (transaction_value clock))) as [raw|] eqn:Hs.
  - unfold createTransaction. rewrite (sign_value_returns _ _ _ Hs). cbn [result].
    repeat (split; [reflexivity|]). now exists (base64_encode raw).
  - unfold createTransaction, sign_value, bind, Sign_sign.
    cbn [createSign update result calls algorithm data append]. now rewrite Hs.
Qed.

(** C7, as the code has it.  The bytes follow the enumeration order of the
    object: the members of a concatenation are the members of its parts, in
    that order; and stripping the signature, wherever it sits, leaves the
    other properties in the order they had, so the verifier is fed the
    serialisation of exactly that sequence. *)
Theorem serialization_follows_enumeration_order (before after : Js.object) (sig : Js.value) :
  ~ In "signature" (Js.keys before) ->
  ~ In "signature" (Js.keys after) ->
  Js.SerializeJSONObject_partial (before ++ after)%list
  = (Js.SerializeJSONObject_partial before ++ Js.SerializeJSONObject_partial after)%list /\
  signed_bytes (before ++ ("signature", sig) :: after)%list
  = Js.JSON_stringify (before ++ after)%list.
Proof.
  intros Hb Ha. split.
  - clear. induction before as [|[k v] o IH]; simpl; [reflexivity|].
    destruct (Js.SerializeJSONProperty v); simpl; now rewrite IH.
  - unfold signed_bytes. rewrite rest_without_app. simpl.
    now rewrite !rest_without_fresh by assumption.
Qed.

End Verification.

(** ** Serialisation determines the value *)

Lemma digit_char_inj (x y : Num.digit) : Num.digit_char x = Num.digit_char y -> x = y.
Proof. destruct x, y; simpl; intros H; try reflexivity; discriminate H. Qed.

Lemma digit_char_is_digit (x : Num.digit) : Scan.is_digit_char (Num.digit_char x) = true.
Proof. destruct x; reflexivity. Qed.

Lemma digits_string_inj (a b : list Num.digit) :
  Num.digits_string a = Num.digits_string b -> a = b.
Proof.
  revert b; induction a as [|x a IH]; intros [|y b]; simpl; intros H;
    try reflexivity; try discriminate H.
  injection H as Hxy H. apply digit_char_inj in Hxy. subst y. f_equal. now apply IH.
Qed.

Lemma all_digits_append (a b : string) :
  Scan.all_digits (a ++ b) = Scan.all_digits a && Scan.all_digits b.
Proof.
  induction a as [|c a IH]; simpl; [reflexivity|]. now rewrite IH, andb_assoc.
Qed.

Lemma all_digits_digits_string (l : list Num.digit) :
  Scan.all_digits (Num.digits_string l) = true.
Proof.
  induction l as [|x l IH]; simpl; [reflexivity|].
  now rewrite digit_char_is_digit, IH.
Qed.

Lemma all_digits_zeros (n : nat) : Scan.all_digits (Str.repeat_char "0" n) = true.
Proof. induction n as [|n IH]; simpl; [reflexivity | exact IH]. Qed.

(** A text with one decimal point splits at it in one way. *)
Lemma digits_point_digits_inj (a a' b b' : list Num.digit) :
  Num.digits_string a ++ "." ++ Num.digits_string b
  = Num.digits_string a' ++ "." ++ Num.digits_string b' ->
  a = a' /\ b = b'.
Proof.
  revert a'; induction a as [|x a IH]; intros [|y a']; simpl; intros H.
  - injection H as H. split; [reflexivity | now apply digits_string_inj].
  - exfalso. injection H as H _. destruct y; discriminate H.
  - exfalso. injection H as H _. destruct x; discriminate H.
  - injection H as Hxy H. apply digit_char_inj in Hxy. subst y.
    destruct (IH a' H) as [-> ->]. split; reflexivity.
Qed.

(** The text of a positive number starts with a digit. *)
Lemma positive_toString_head (d : Num.digit) (ds : list Num.digit) (n : Z) :
  exists c rest,
    Num.positive_toString d ds n = String c rest /\ Scan.is_digit_char c = true.
Proof.
  unfold Num.positive_toString. cbv zeta.
  destruct ((Z.of_nat (List.length (d :: ds)) <=? n) && (n <=? 21)) eqn:E1.
  { simpl. eexists; eexists; split; [reflexivity | apply digit_char_is_digit]. }
  destruct ((0 <? n) && (n <=? 21)) eqn:E2.
  { destruct (Z.to_nat n) as [|m] eqn:Em; [lia|]. simpl.
    eexists; eexists; split; [reflexivity | apply digit_char_is_digit]. }
  destruct ((-6 <? n) && (n <=? 0)) eqn:E3.
  { simpl. eexists; eexists; split; reflexivity. }
  destruct ds; eexists; eexists; split; try reflexivity; apply digit_char_is_digit.
Qed.

(** Only the number [10.2] prints as [10.2]. *)
Lemma positive_toString_10_2 (d : Num.digit) (ds : list Num.digit) (n : Z) :
  Num.positive_toString d ds n = "10.2" ->
  d = Num.d1 /\ ds = [Num.d0; Num.d2] /\ n = 2.
Proof.
  unfold Num.positive_toString. cbv zeta.
  destruct ((Z.of_nat (List.length (d :: ds)) <=? n) && (n <=? 21)) eqn:E1.
  { intros H. apply (f_equal Scan.all_digits) in H.
    rewrite all_digits_append, all_digits_digits_string, all_digits_zeros in H.
    discriminate H. }
  destruct ((0 <? n) && (n <=? 21)) eqn:E2.
  { intros H.
    change "10.2" with
      (Num.digits_string [Num.d1; Num.d0] ++ "." ++ Num.digits_string [Num.d2]) in H.
    apply digits_point_digits_inj in H as [Hf Hs].
    pose proof (firstn_skipn (Z.to_nat n) (d :: ds)) as Hall.
    rewrite Hf, Hs in Hall. simpl in Hall. injection Hall as <- <-.
    apply (f_equal (@List.length _)) in Hf. rewrite length_firstn in Hf.
    simpl in Hf. repeat split; try reflexivity. lia. }
  destruct ((-6 <? n) && (n <=? 0)) eqn:E3.
  { simpl. intros H. discriminate H. }
  destruct ds; simpl; intros H; discriminate H.
Qed.

Lemma Number_text_10_2 (x : Num.number) :
  (if Num.isFinite x then Num.Number_toString x else "null") = "10.2" ->
  x = Num.ten_point_two.
Proof.
  destruct x as [|neg|neg|neg d ds n]; simpl; try discriminate.
  destruct neg; simpl; [discriminate|].
  intros H. apply positive_toString_10_2 in H as (-> & -> & ->). reflexivity.
Qed.

Lemma Number_text_not_quoted (x : Num.number) (rest : string) :
  (if Num.isFinite x then Num.Number_toString x else "null") <> String Str.dquote rest.
Proof.
  rewrite dquote_bits.
  destruct x as [|neg|neg|neg d ds n]; simpl; try discriminate.
  destruct neg; simpl; [discriminate|].
  destruct (positive_toString_head d ds n) as (c & r & -> & Hc).
  intros H. injection H as -> _. discriminate Hc.
Qed.

(** A value is fixed by its JSON text when that text is a string literal. *)
Lemma SerializeJSONProperty_string (v : Js.value) (s : string) :
  Js.SerializeJSONProperty v = Some (Js.QuoteJSONString s) -> v = Js.VStr s.
Proof.
  unfold Js.SerializeJSONProperty.
  destruct v as [| |b|x|s']; intros H.
  - discriminate H.
  - exfalso. unfold Js.QuoteJSONString in H. rewrite dquote_bits in H. discriminate H.
  - exfalso. unfold Js.QuoteJSONString in H. rewrite dquote_bits in H.
    destruct b; discriminate H.
  - exfalso. injection H as H. unfold Js.QuoteJSONString in H.
    exact (Number_text_not_quoted _ _ H).
  - f_equal. apply QuoteJSONString_inj. congruence.
Qed.

(** ... and when it is the text [10.2]. *)
Lemma SerializeJSONProperty_10_2 (v : Js.value) :
  Js.SerializeJSONProperty v = Some "10.2" -> v = Js.VNum Num.ten_point_two.
Proof.
  unfold Js.SerializeJSONProperty.
  destruct v as [| |b|x|s']; intros H.
  - discriminate H.
  - discriminate H.
  - destruct b; discriminate H.
  - injection H as H. f_equal. now apply Number_text_10_2.
  - exfalso. unfold Js.QuoteJSONString in H. rewrite dquote_bits in H. discriminate H.
Qed.

(** Joining with commas. *)
Lemma concat_cons (sep x y : string) (l : list string) :
  String.concat sep (x :: y :: l) = x ++ sep ++ String.concat sep (y :: l).
Proof. reflexivity. Qed.

Lemma concat_middle_inj (sep x y : string) (a b : list string) :
  String.concat sep (a ++ x :: b)%list = String.concat sep (a ++ y :: b)%list -> x = y.
Proof.
  induction a as [|z a IH]; simpl app.
  - destruct b as [|w b]; simpl; intros H; [exact H|].
    now apply append_inv_tail in H.
  - destruct a as [|z' a]; simpl app in *.
    + rewrite !concat_cons. intros H. apply append_inv_head in H.
      apply append_inv_head in H. now apply IH.
    + rewrite !concat_cons. intros H. apply append_inv_head in H.
      apply append_inv_head in H. now apply IH.
Qed.

Lemma concat_middle_longer (sep x : string) (a b : list string) :
  (String.length (String.concat sep (a ++ b)%list) + String.length x
   <= String.length (String.concat sep (a ++ x :: b)%list))%nat.
Proof.
  induction a as [|z a IH]; simpl app.
  - destruct b as [|w b]; [simpl; lia|].
    rewrite concat_cons, !length_append. lia.
  - destruct a as [|z' a]; simpl app in *.
    + destruct b as [|w b].
      * rewrite concat_cons. simpl String.concat. rewrite !length_append. lia.
      * rewrite !concat_cons in *. rewrite !length_append in *. lia.
    + rewrite !concat_cons in *. rewrite !length_append in *. lia.
Qed.

Lemma partial_app (a b : Js.object) :
  Js.SerializeJSONObject_partial (a ++ b)%list
  = (Js.SerializeJSONObject_partial a ++ Js.SerializeJSONObject_partial b)%list.
Proof.
  induction a as [|[k v] o IH]; simpl; [reflexivity|].
  destruct (Js.SerializeJSONProperty v); simpl; now rewrite IH.
Qed.

Lemma partial_cons (k : string) (v : Js.value) (o : Js.object) :
  Js.SerializeJSONObject_partial ((k, v) :: o)
  = match Js.SerializeJSONProperty v with
    | Some text =>
        (Js.QuoteJSONString k ++ ":" ++ text) :: Js.SerializeJSONObject_partial o
    | None => Js.SerializeJSONObject_partial o
    end.
Proof. reflexivity. Qed.

(** Changing the value of one property changes the bytes, when the value it
    had is the only one with its JSON text. *)
Lemma stringify_changed_value (before after : Js.object) (k text : string) (v v' : Js.value) :
  Js.SerializeJSONProperty v = Some text ->
  (forall w, Js.SerializeJSONProperty w = Some text -> w = v) ->
  v' <> v ->
  Js.JSON_stringify (before ++ (k, v') :: after)%list
  <> Js.JSON_stringify (before ++ (k, v) :: after)%list.
Proof.
  intros Hv Honly Hne H. unfold Js.JSON_stringify in H.
  injection H as H. apply append_inv_tail in H.
  rewrite !partial_app, !partial_cons, Hv in H.
  destruct (Js.SerializeJSONProperty v') as [text'|] eqn:Hv'.
  - apply concat_middle_inj in H.
    apply append_inv_head in H. apply append_inv_head in H. subst text'.
    now apply Hne, Honly.
  - apply (f_equal String.length) in H.
    pose proof (concat_middle_longer ","
                  (Js.QuoteJSONString k ++ ":" ++ text)
                  (Js.SerializeJSONObject_partial before)
                  (Js.SerializeJSONObject_partial after)) as Hlen.
    rewrite <- H in Hlen. unfold Js.QuoteJSONString in Hlen.
    cbn [String.length append] in Hlen. lia.
Qed.

Lemma rest_without_Put_other (key k : string) (v : Js.value) (o : Js.object) :
  k <> key ->
  Js.rest_without key (Js.Put o k v) = Js.Put (Js.rest_without key o) k v.
Proof.
  intros Hk. induction o as [|[k0 v0] o IH]; simpl.
  - destruct (String.eqb_spec k key); [congruence | reflexivity].
  - destruct (String.eqb_spec k0 k) as [->|Hne]; simpl.
    + destruct (String.eqb_spec k key); [congruence|]. simpl.
      now rewrite String.eqb_refl.
    + destruct (String.eqb_spec k0 key); simpl; [exact IH|].
      destruct (String.eqb_spec k0 k); [congruence|]. now rewrite IH.
Qed.

(** Changing any of the four fields of the object the signer built changes
    its serialisation. *)
Lemma tampered_bytes_differ (clock : Z) (field : string) (v' : Js.value) :
  In field ["amount"; "currency"; "remark"; "created_at"] ->
  v' <> Js.Get (transaction_value clock) field ->
  Js.JSON_stringify (Js.Put (transaction_value clock) field v')
  <> Js.JSON_stringify (transaction_value clock).
Proof.
  intros Hfield Hne.
  destruct Hfield as [<-|[<-|[<-|[<-|[]]]]]; simpl in Hne.
  - apply (stringify_changed_value [("currency", Js.VStr "USD")] _ "amount" "10.2");
      [reflexivity | apply SerializeJSONProperty_10_2 | exact Hne].
  - apply (stringify_changed_value [] _ "currency" (Js.QuoteJSONString "USD"));
      [reflexivity | intros w; apply SerializeJSONProperty_string | exact Hne].
  - apply (stringify_changed_value
             [("currency", Js.VStr "USD"); ("amount", Js.VNum Num.ten_point_two)] _
             "remark" (Js.QuoteJSONString "Payment for service"));
      [reflexivity | intros w; apply SerializeJSONProperty_string | exact Hne].
  - apply (stringify_changed_value
             [("currency", Js.VStr "USD"); ("amount", Js.VNum Num.ten_point_two);
              ("remark", Js.VStr "Payment for service")] []
             "created_at" (Js.QuoteJSONString (JsDate.Date_toISOString clock)));
      [reflexivity | intros w; apply SerializeJSONProperty_string | exact Hne].
Qed.

(** ** Tampering *)

Section Tampering.

Context {R : Runtime}.

(** C8, as the code has it.  Take what the signer returned and change the
    value of one of its four fields, the signature staying.  Then, if a
    signature made with [priv] is accepted by [pub] for no other data,
    verification returns false: by the freshness branch (outcome
    [expired]) when the changed transaction is outside the window, by the
    signature check (outcome [signature_invalid]) when it is inside. *)
Theorem tampering_makes_verification_fail (clock_sign clock_verify : Z)
    (priv pub : string) (signed : Js.object) (field : string) (v' : Js.value) :
  Binding priv pub -> Base64RoundTrip ->
  result (createTransaction clock_sign priv) = Return signed ->
  In field ["amount"; "currency"; "remark"; "created_at"] ->
  v' <> Js.Get signed field ->
  result (verifyTransaction clock_verify (Js.Put signed field v') pub) = Return false /\
  verification_outcome clock_verify (Js.Put signed field v') pub
  = Return (if window_exceeded clock_verify
                 (Js.rest_without "signature" (Js.Put signed field v'))
            then expired else signature_invalid).
Proof.
  intros Hbind Hb64 Hsigned Hfield Hne.
  apply sign_value_inv in Hsigned as (raw & Hraw & ->).
  pose proof (transaction_value_unsigned clock_sign) as Hfresh.
  assert (Hfs : field <> "signature").
  { destruct Hfield as [<-|[<-|[<-|[<-|[]]]]]; discriminate. }
  rewrite Get_Put_other in Hne by assumption.
  assert (Hr : result (verifyTransaction clock_verify
                         (Js.Put (Js.Put (transaction_value clock_sign) "signature"
                                    (Js.VStr (base64_encode raw))) field v') pub)
               = Return false).
  { rewrite verifyTransaction_result.
    destruct (window_exceeded clock_verify _); [reflexivity|].
    rewrite Get_Put_other by congruence. rewrite Get_Put_same, check_signature_text.
    cbn [result fed_verifier algorithm data]. unfold signed_bytes.
    rewrite rest_without_Put_other by assumption.
    rewrite rest_without_Put_fresh by assumption.
    rewrite Hb64.
    now rewrite (Hbind ALGORITHM _ raw _ Hraw (tampered_bytes_differ _ _ _ Hfield Hne)). }
  split; [exact Hr|]. unfold verification_outcome. rewrite Hr.
  now destruct (window_exceeded clock_verify _).
Qed.

End Tampering.

(** ** Runs of the model *)

(** C4, refuted as stated: a transaction inside the window that carries no
    signature makes [verifyTransaction] throw a TypeError; no result, and no
    reason, reaches the caller. *)
Lemma missing_signature_throws :
  Js.Get (transaction_value Sample.t0) "signature" = Js.VUndefined /\
  result (verifyTransaction (R := Sample.runtime) (Sample.t0 + 1000)
            (transaction_value Sample.t0) "K1") = Throw TypeError /\
  verification_outcome (R := Sample.runtime) (Sample.t0 + 1000)
    (transaction_value Sample.t0) "K1" = Throw TypeError.
Proof. repeat split. Qed.

(** C5, refuted as stated: the same signed transaction and the same public
    key give true at one clock reading and false at another; the verifier
    reads the clock itself, and the bound it applies is five minutes. *)
Lemma verification_reads_host_clock :
  result (createTransaction (R := Sample.runtime) Sample.t0 "K1")
    = Return Sample.signed_t0 /\
  result (verifyTransaction (R := Sample.runtime) (Sample.t0 + 299999)
            Sample.signed_t0 "K1") = Return true /\
  result (verifyTransaction (R := Sample.runtime) (Sample.t0 + 300000)
            Sample.signed_t0 "K1") = Return false.
Proof. split; [reflexivity|]. split; vm_compute; reflexivity. Qed.

(** C6, refuted as stated: whatever transaction the caller has in mind, the
    signer returns the hardcoded fields and the clock's date; the specified
    signer would return the caller's. *)
Lemma signer_ignores_supplied_transaction :
  exists by_code by_spec,
    result (createTransaction (R := Sample.runtime) Sample.t0 "K1") = Return by_code /\
    result (spec_sign (R := Sample.runtime) Sample.t0 Sample.euro_transaction "K1")
      = Return by_spec /\
    Js.Get by_code "currency" = Js.VStr "USD" /\
    Js.Get by_spec "currency" = Js.VStr "EUR" /\
    Js.Get by_code "created_at" = Js.VStr "2024-11-18T07:13:42.582Z" /\
    Js.Get by_spec "created_at" = Js.VStr "2020-01-01T00:00:00.000Z".
Proof.
  eexists. eexists. split; [reflexivity|]. split; [reflexivity|].
  repeat split.
Qed.

(** C7, refuted as stated: the same four field values entered in another
    order serialise to other bytes, and the signature made over the first
    order is rejected for the second. *)
Lemma key_order_changes_bytes :
  (forall k, Js.Get Sample.amount_first k = Js.Get (transaction_value Sample.t0) k) /\
  Js.JSON_stringify (transaction_value Sample.t0)
    = Str.q "{'currency':'USD','amount':10.2,'remark':'Payment for service','created_at':'2024-11-18T07:13:42.582Z'}" /\
  Js.JSON_stringify Sample.amount_first
    = Str.q "{'amount':10.2,'currency':'USD','remark':'Payment for service','created_at':'2024-11-18T07:13:42.582Z'}" /\
  exists sig,
    result (createTransaction (R := Sample.runtime) Sample.t0 "K1")
      = Return (transaction_value Sample.t0 ++ [("signature", sig)])%list /\
    result (verifyTransaction (R := Sample.runtime) (Sample.t0 + 1000)
              (transaction_value Sample.t0 ++ [("signature", sig)])%list "K1")
      = Return true /\
    result (verifyTransaction (R := Sample.runtime) (Sample.t0 + 1000)
              (Sample.amount_first ++ [("signature", sig)])%list "K1")
      = Return false.
Proof.
  split.
  - intros k. unfold Sample.amount_first, transaction_value. cbn [Js.Get].
    destruct (String.eqb_spec "amount" k); destruct (String.eqb_spec "currency" k);
      try reflexivity. congruence.
  - split; [reflexivity|]. split; [reflexivity|].
    eexists. split; [reflexivity|]. split; vm_compute; reflexivity.
Qed.

(** C8, refuted as stated: dating the signed transaction ten minutes back
    makes verification fail by the freshness branch, the outcome the
    specification calls [expired], and the signature is never looked at. *)
Lemma backdated_transaction_is_expired :
  result (createTransaction (R := Sample.runtime) Sample.t0 "K1")
    = Return Sample.signed_t0 /\
  verification_outcome (R := Sample.runtime) (Sample.t0 + 1000) Sample.signed_t0 "K1"
    = Return valid /\
  verification_outcome (R := Sample.runtime) (Sample.t0 + 1000) Sample.backdated "K1"
    = Return expired /\
  verifyTransaction (R := Sample.runtime) (Sample.t0 + 1000) Sample.backdated "K1"
    = Run [call_createVerify "sha256"; call_update (signed_bytes Sample.backdated)]
        (Return false).
Proof. split; [reflexivity|]. repeat split; vm_compute; reflexivity. Qed.

(** C9, refuted as stated: on a transaction six minutes old the freshness
    branch returns after two calls to [node:crypto], the creation of the
    verifier and the [update] that hashes the serialised fields; only the
    signature check is skipped. *)
Lemma stale_run_has_hashed_the_fields :
  verifyTransaction (R := Sample.runtime) (Sample.t0 + 6 * 60 * 1000) Sample.signed_t0 "K1"
  = Run [ call_createVerify "sha256";
          call_update (Str.q "{'currency':'USD','amount':10.2,'remark':'Payment for service','created_at':'2024-11-18T07:13:42.582Z'}") ]
      (Return false).
Proof. vm_compute. reflexivity. Qed.

(** The scenario of the specification's section 8, with the bare booleans
    the code returns: one second after signing, true; under another key,
    false; six minutes after signing, false. *)
Example scenario_of_the_specification :
  result (verifyTransaction (R := Sample.runtime) (Sample.t0 + 1000)
            Sample.signed_t0 "K1") = Return true /\
  result (verifyTransaction (R := Sample.runtime) (Sample.t0 + 1000)
            Sample.signed_t0 "K2") = Return false /\
  result (verifyTransaction (R := Sample.runtime) (Sample.t0 + 6 * 60 * 1000)
            Sample.signed_t0 "K1") = Return false.
Proof. repeat split; vm_compute; reflexivity. Qed.

(** ** The sample runtime meets the assumptions *)

Lemma sample_key_pair (k : string) : k <> "" -> KeyPair (R := Sample.runtime) k k.
Proof.
  intros Hk alg msg. exists (Sample.tag alg k msg). simpl.
  unfold Sample.sign, Sample.verify, Buffer_from.
  apply String.eqb_neq in Hk. rewrite Hk, String.eqb_refl. now split.
Qed.

Lemma sample_binding (k : string) : k <> "" -> Binding (R := Sample.runtime) k k.
Proof.
  intros Hk alg msg raw msg'. simpl. unfold Sample.sign, Sample.verify, Buffer_from.
  apply String.eqb_neq in Hk. rewrite Hk. intros [= <-] Hne. f_equal.
  apply String.eqb_neq. unfold Sample.tag. intros H.
  repeat apply append_inv_head in H. congruence.
Qed.

Lemma sample_base64 : Base64RoundTrip (R := Sample.runtime).
Proof. intros b. reflexivity. Qed.

Lemma sample_accepted_key (k : string) : k <> "" -> AcceptedKey (R := Sample.runtime) k.
Proof.
  intros Hk alg msg sig. simpl. unfold Sample.verify, Buffer_from.
  apply String.eqb_neq in Hk. rewrite Hk. discriminate.
Qed.

Lemma sample_signed_t0_valid : ValidlySigned (R := Sample.runtime) Sample.signed_t0 "K1".
Proof. eexists. split; [reflexivity | vm_compute; reflexivity]. Qed.

Lemma sample_postdated_valid : ValidlySigned (R := Sample.runtime) Sample.postdated "K1".
Proof. eexists. split; [reflexivity | vm_compute; reflexivity]. Qed.

Lemma sample_date_t0 :
  Date_new (R := Sample.runtime) (Js.Get Sample.signed_t0 "created_at") = Some Sample.t0.
Proof. vm_compute. reflexivity. Qed.

(** ** The theorems at work on the sample runtime *)

(** C1 at work: signing at [t0] with [K1], verifying one second later. *)
Lemma round_trip_validity_witness :
  exists signed,
    result (createTransaction (R := Sample.runtime) Sample.t0 "K1") = Return signed /\
    result (verifyTransaction (R := Sample.runtime) (Sample.t0 + 1000) signed "K1")
      = Return true /\
    verification_outcome (R := Sample.runtime) (Sample.t0 + 1000) signed "K1" = Return valid.
Proof.
  apply (round_trip_validity (R := Sample.runtime) Sample.t0 (Sample.t0 + 1000) "K1" "K1").
  - apply sample_key_pair. discriminate.
  - exact sample_base64.
  - vm_compute. reflexivity.
  - vm_compute. reflexivity.
Defined.

(** C2 at work, on the transaction signed at [t0]. *)
Lemma signature_excluded_from_signed_bytes_witness :
  Js.keys (transaction_value Sample.t0) = ["currency"; "amount"; "remark"; "created_at"] /\
  calls (createTransaction (R := Sample.runtime) Sample.t0 "K1")
  = [call_createSign ALGORITHM;
     call_update (Js.JSON_stringify (transaction_value Sample.t0));
     call_sign (Buffer_from "K1")] /\
  (exists sig,
     Sample.signed_t0 = (transaction_value Sample.t0 ++ [("signature", Js.VStr sig)])%list) /\
  Js.rest_without "signature" Sample.signed_t0 = transaction_value Sample.t0 /\
  forall clock' pub, exists then_,
    calls (verifyTransaction (R := Sample.runtime) clock' Sample.signed_t0 pub)
    = call_createVerify ALGORITHM
      :: call_update (Js.JSON_stringify (transaction_value Sample.t0)) :: then_.
Proof.
  apply (signature_excluded_from_signed_bytes (R := Sample.runtime) Sample.t0 "K1"
           Sample.signed_t0).
  reflexivity.
Defined.

(** C3 at work: one millisecond inside the window, and exactly on its edge. *)
Lemma expiry_boundary_inclusive_witness :
  (result (verifyTransaction (R := Sample.runtime) (Sample.t0 + 299999)
             Sample.signed_t0 "K1") = Return true /\
   verification_outcome (R := Sample.runtime) (Sample.t0 + 299999) Sample.signed_t0 "K1"
     = Return valid) /\
  (result (verifyTransaction (R := Sample.runtime) (Sample.t0 + 300000)
             Sample.signed_t0 "K1") = Return false /\
   verification_outcome (R := Sample.runtime) (Sample.t0 + 300000) Sample.signed_t0 "K1"
     = Return expired).
Proof.
  split.
  - apply (expiry_boundary_inclusive (R := Sample.runtime) (Sample.t0 + 299999) Sample.t0
             Sample.signed_t0 "K1" sample_date_t0 sample_signed_t0_valid).
    vm_compute. reflexivity.
  - apply (expiry_boundary_inclusive (R := Sample.runtime) (Sample.t0 + 300000) Sample.t0
             Sample.signed_t0 "K1" sample_date_t0 sample_signed_t0_valid).
    vm_compute. discriminate.
Defined.

(** C10 at work: a transaction dated one hour after the clock reading. *)
Lemma future_dated_decided_by_signature_witness :
  window_exceeded (R := Sample.runtime) Sample.t0
    (Js.rest_without "signature" Sample.postdated) = false /\
  result (verifyTransaction (R := Sample.runtime) Sample.t0 Sample.postdated "K1")
  = result (check_signature (R := Sample.runtime) (fed_verifier Sample.postdated) "K1"
              (Js.Get Sample.postdated "signature")) /\
  (ValidlySigned (R := Sample.runtime) Sample.postdated "K1" ->
   result (verifyTransaction (R := Sample.runtime) Sample.t0 Sample.postdated "K1")
   = Return true).
Proof.
  apply (future_dated_decided_by_signature (R := Sample.runtime) Sample.t0
           (Sample.t0 + 3600000) Sample.postdated "K1").
  - vm_compute. reflexivity.
  - vm_compute. reflexivity.
Defined.

(** C5 at work: two readings inside the window. *)
Lemma verification_determined_by_clock_side_witness :
  verifyTransaction (R := Sample.runtime) (Sample.t0 + 1000) Sample.signed_t0 "K1"
  = verifyTransaction (R := Sample.runtime) (Sample.t0 + 2000) Sample.signed_t0 "K1".
Proof.
  apply (verification_determined_by_clock_side (R := Sample.runtime)
           (Sample.t0 + 1000) (Sample.t0 + 2000) Sample.signed_t0 "K1").
  intros created_at H. rewrite sample_date_t0 in H. injection H as <-.
  unfold Sample.t0. lia.
Defined.

(** C7 at work: the signature sitting between the fields. *)
Lemma serialization_follows_enumeration_order_witness :
  Js.SerializeJSONObject_partial (fixed_fields ++ [("created_at", Js.VNull)])%list
  = (Js.SerializeJSONObject_partial fixed_fields
     ++ Js.SerializeJSONObject_partial [("created_at", Js.VNull)])%list /\
  signed_bytes
    (fixed_fields ++ ("signature", Js.VStr "c2ln") :: [("created_at", Js.VNull)])%list
  = Js.JSON_stringify (fixed_fields ++ [("created_at", Js.VNull)])%list.
Proof.
  apply (serialization_follows_enumeration_order
           fixed_fields [("created_at", Js.VNull)] (Js.VStr "c2ln")).
  - simpl. intros [H|[H|[H|[]]]]; discriminate H.
  - simpl. intros [H|[]]; discriminate H.
Defined.

(** C8 at work: the amount raised to 1000 inside the window. *)
Lemma tampering_makes_verification_fail_witness :
  result (verifyTransaction (R := Sample.runtime) (Sample.t0 + 1000)
            (Js.Put Sample.signed_t0 "amount" (Js.VNum (Num.Finite false Num.d1 [] 4)))
            "K1") = Return false /\
  verification_outcome (R := Sample.runtime) (Sample.t0 + 1000)
    (Js.Put Sample.signed_t0 "amount" (Js.VNum (Num.Finite false Num.d1 [] 4))) "K1"
    = Return signature_invalid.
Proof.
  apply (tampering_makes_verification_fail (R := Sample.runtime) Sample.t0 (Sample.t0 + 1000)
           "K1" "K1" Sample.signed_t0 "amount" (Js.VNum (Num.Finite false Num.d1 [] 4))).
  - apply sample_binding. discriminate.
  - exact sample_base64.
  - reflexivity.
  - simpl. tauto.
  - simpl. discriminate.
Defined.

(** * Part III: further properties of the code *)

(** ** Objects and bytes *)

Lemma Get_fresh (k : string) (o : Js.object) :
  ~ In k (Js.keys o) -> Js.Get o k = Js.VUndefined.
Proof.
  induction o as [|[k0 v0] o IH]; simpl; intros Hin; [reflexivity|].
  destruct (String.eqb_spec k0 k) as [->|Hne].
  - exfalso. apply Hin. now left.
  - apply IH. intros H. apply Hin. now right.
Qed.

Lemma Get_app_undefined (k key : string) (o : Js.object) :
  ~ In k (Js.keys o) ->
  Js.Get (o ++ [(k, Js.VUndefined)])%list key = Js.Get o key.
Proof.
  intros Hk. induction o as [|[k0 v0] o IH]; simpl.
  - now destruct (String.eqb k key).
  - destruct (String.eqb_spec k0 key); [reflexivity|].
    apply IH. intros H. apply Hk. now right.
Qed.

(** Leaving a serialised member out changes the bytes. *)
Lemma stringify_dropped_member (before after : Js.object) (k text : string) (v : Js.value) :
  Js.SerializeJSONProperty v = Some text ->
  Js.JSON_stringify (before ++ after)%list
  <> Js.JSON_stringify (before ++ (k, v) :: after)%list.
Proof.
  intros Hv H. unfold Js.JSON_stringify in H.
  injection H as H. apply append_inv_tail in H.
  rewrite !partial_app, partial_cons, Hv in H.
  apply (f_equal String.length) in H.
  pose proof (concat_middle_longer ","
                (Js.QuoteJSONString k ++ ":" ++ text)
                (Js.SerializeJSONObject_partial before)
                (Js.SerializeJSONObject_partial after)) as Hlen.
  rewrite H in Hlen. unfold Js.QuoteJSONString in Hlen.
  cbn [String.length append] in Hlen. lia.
Qed.

Section Further.

Context {R : Runtime}.

(** Verification looks at three things in a transaction: the bytes of its
    fields other than the signature, its signature, and its date. *)
Lemma verifyTransaction_ext (clock : Z) (t t' : Js.object) (pub : string) :
  signed_bytes t = signed_bytes t' ->
  Js.Get t "signature" = Js.Get t' "signature" ->
  Js.Get t "created_at" = Js.Get t' "created_at" ->
  verifyTransaction clock t pub = verifyTransaction clock t' pub.
Proof.
  unfold signed_bytes. intros Hb Hs Hd.
  unfold verifyTransaction, window_exceeded.
  rewrite !Get_rest_without_other by discriminate.
  now rewrite Hb, Hs, Hd.
Qed.

Lemma window_exceeded_monotone (clock clock' : Z) (value : Js.object) :
  clock <= clock' ->
  window_exceeded clock value = true -> window_exceeded clock' value = true.
Proof.
  unfold window_exceeded. intros Hle.
  destruct (Date_new (Js.Get value "created_at")) as [c|]; simpl; [|discriminate].
  intros H. apply Z.leb_le in H. apply Z.leb_le. lia.
Qed.

Lemma stale_run (clock : Z) (transaction : Js.object) (pub : string) :
  window_exceeded clock (Js.rest_without "signature" transaction) = true ->
  verifyTransaction clock transaction pub
  = Run [call_createVerify ALGORITHM; call_update (signed_bytes transaction)]
      (Return false).
Proof.
  intros Hw. unfold verifyTransaction, bind. cbn [createVerify update result calls].
  now rewrite Hw.
Qed.

Lemma verified_characterisation (clock : Z) (transaction : Js.object) (pub : string) :
  result (verifyTransaction clock transaction pub) = Return true <->
  window_exceeded clock (Js.rest_without "signature" transaction) = false /\
  ValidlySigned transaction pub.
Proof.
  rewrite verifyTransaction_result. split.
  - destruct (window_exceeded clock _); [discriminate|].
    intros H. split; [reflexivity|].
    destruct (Js.Get transaction "signature") as [| | | |s] eqn:Hs;
      try (rewrite check_signature_not_text in H by discriminate; discriminate H).
    rewrite check_signature_text in H. cbn [result fed_verifier algorithm data] in H.
    exists s. split; [exact Hs|].
    destruct (crypto_verify _ _ _ _) as [[|]|]; try discriminate H. reflexivity.
  - intros [Hw Hv]. rewrite Hw. now apply check_signature_valid.
Qed.

Lemma created_signature_is_text (clock : Z) (priv : string) (signed : Js.object) :
  result (createTransaction clock priv) = Return signed ->
  exists raw,
    crypto_sign ALGORITHM (Buffer_from priv) (Js.JSON_stringify (transaction_value clock))
    = Some raw /\
    signed = (transaction_value clock ++ [("signature", Js.VStr (base64_encode raw))])%list.
Proof.
  intros H. apply sign_value_inv in H as (raw & Hraw & ->).
  exists raw. split; [exact Hraw|].
  apply Put_fresh, transaction_value_unsigned.
Qed.

(** With an ideal signature, a transaction that carries the signature of a
    created one over other bytes is never accepted. *)
Lemma rejected_when_bytes_differ (clock_sign clock : Z) (priv pub : string)
    (raw : Buffer) (t : Js.object) :
  Binding priv pub -> Base64RoundTrip ->
  crypto_sign ALGORITHM (Buffer_from priv) (Js.JSON_stringify (transaction_value clock_sign))
  = Some raw ->
  Js.Get t "signature" = Js.VStr (base64_encode raw) ->
  signed_bytes t <> Js.JSON_stringify (transaction_value clock_sign) ->
  result (verifyTransaction clock t pub) = Return false.
Proof.
  intros Hbind Hb64 Hraw Hsig Hbytes.
  rewrite verifyTransaction_result.
  destruct (window_exceeded clock _); [reflexivity|].
  rewrite Hsig, check_signature_text. cbn [result fed_verifier algorithm data].
  rewrite Hb64. now rewrite (Hbind ALGORITHM _ raw _ Hraw Hbytes).
Qed.

(** X1. With a key pair in the two key files and less than five minutes
    between the two clock readings, the script signs, prints the signed
    transaction, verifies it and prints [isVerified: true]; it makes six
    calls to [node:crypto] and hashes the same bytes twice. *)
Theorem script_prints_verified (files : string -> option string)
    (clock_sign clock_verify : Z) (priv pub : string) :
  files "private.pem" = Some priv ->
  files "public.pem" = Some pub ->
  KeyPair priv pub -> Base64RoundTrip ->
  Date_parse (JsDate.Date_toISOString clock_sign) = Some clock_sign ->
  clock_verify - clock_sign < maximumWindowMs ->
  exists raw,
    main files clock_sign clock_verify
    = Script
        [ log_transaction
            (transaction_value clock_sign
             ++ [("signature", Js.VStr (base64_encode raw))])%list;
          log_isVerified true ]
        [ call_createSign ALGORITHM;
          call_update (Js.JSON_stringify (transaction_value clock_sign));
          call_sign (Buffer_from priv);
          call_createVerify ALGORITHM;
          call_update (Js.JSON_stringify (transaction_value clock_sign));
          call_verify (Buffer_from pub) raw ]
        script_done.
Proof.
  intros Hpriv Hpub Hkeys Hb64 Hdate Hwin.
  destruct (Hkeys ALGORITHM (Js.JSON_stringify (transaction_value clock_sign)))
    as (raw & Hs & Hv).
  exists raw. unfold main. rewrite Hpriv, Hpub.
  unfold createTransaction. rewrite (sign_value_returns _ _ _ Hs). cbn [result calls].
  pose proof (transaction_value_unsigned clock_sign) as Hfresh.
  rewrite (Put_fresh _ _ _ Hfresh).
  rewrite <- (Put_fresh "signature" (Js.VStr (base64_encode raw)) _ Hfresh).
  assert (Hw : window_exceeded clock_verify
                 (Js.rest_without "signature"
                    (Js.Put (transaction_value clock_sign) "signature"
                       (Js.VStr (base64_encode raw)))) = false).
  { rewrite rest_without_Put_fresh by assumption.
    unfold window_exceeded. cbn [Js.Get transaction_value String.eqb Ascii.eqb Bool.eqb].
    unfold Date_new. rewrite Hdate. simpl.
    destruct (Z.leb_spec maximumWindowMs (clock_verify - clock_sign)); [lia|reflexivity]. }
  rewrite verifyTransaction_result, verifyTransaction_calls, Hw.
  rewrite Get_Put_same, check_signature_text.
  cbn [result calls fed_verifier algorithm data].
  rewrite signed_bytes_of_signed, Hb64, Hv by assumption.
  rewrite (Put_fresh _ _ _ Hfresh). reflexivity.
Qed.

Lemma sign_value_throws (value : Js.object) (priv : string) :
  crypto_sign ALGORITHM (Buffer_from priv) (Js.JSON_stringify value) = None ->
  sign_value value priv
  = Run [call_createSign ALGORITHM; call_update (Js.JSON_stringify value);
         call_sign (Buffer_from priv)]
      (Throw CryptoError).
Proof.
  intros H. unfold sign_value, bind, Sign_sign.
  cbn [createSign update result calls algorithm data append]. rewrite H. reflexivity.
Qed.

(** The transaction the script signs at [clock] when the key signs as [raw]. *)
Lemma createTransaction_returns (clock : Z) (priv : string) (raw : Buffer) :
  crypto_sign ALGORITHM (Buffer_from priv) (Js.JSON_stringify (transaction_value clock))
  = Some raw ->
  createTransaction clock priv
  = Run [call_createSign ALGORITHM;
         call_update (Js.JSON_stringify (transaction_value clock));
         call_sign (Buffer_from priv)]
      (Return (transaction_value clock
               ++ [("signature", Js.VStr (base64_encode raw))])%list).
Proof.
  intros H. unfold createTransaction. rewrite (sign_value_returns _ _ _ H).
  now rewrite (Put_fresh _ _ _ (transaction_value_unsigned clock)).
Qed.

Lemma verify_text_signature_not_type_error (clock : Z) (t : Js.object) (pub s : string) :
  Js.Get t "signature" = Js.VStr s ->
  result (verifyTransaction clock t pub) <> Throw TypeError.
Proof.
  intros Hs. rewrite verifyTransaction_result.
  destruct (window_exceeded clock _); [discriminate|].
  rewrite Hs, check_signature_text. cbn [result].
  destruct (crypto_verify _ _ _ _); discriminate.
Qed.

Lemma Get_signature_of_created (clock : Z) (sig : Js.value) :
  Js.Get (transaction_value clock ++ [("signature", sig)])%list "signature" = sig.
Proof. reflexivity. Qed.

(** X2. When five minutes or more pass between the two clock readings, the
    script prints [isVerified: false] whatever the public key file holds,
    readable as a key or not: the signature is never checked. *)
Theorem script_prints_false_when_stale (files : string -> option string)
    (clock_sign clock_verify : Z) (priv pub : string) (raw : Buffer) :
  files "private.pem" = Some priv ->
  files "public.pem" = Some pub ->
  crypto_sign ALGORITHM (Buffer_from priv)
    (Js.JSON_stringify (transaction_value clock_sign)) = Some raw ->
  Date_parse (JsDate.Date_toISOString clock_sign) = Some clock_sign ->
  clock_verify - clock_sign >= maximumWindowMs ->
  main files clock_sign clock_verify
  = Script
      [ log_transaction
          (transaction_value clock_sign
           ++ [("signature", Js.VStr (base64_encode raw))])%list;
        log_isVerified false ]
      [ call_createSign ALGORITHM;
        call_update (Js.JSON_stringify (transaction_value clock_sign));
        call_sign (Buffer_from priv);
        call_createVerify ALGORITHM;
        call_update (Js.JSON_stringify (transaction_value clock_sign)) ]
      script_done.
Proof.
  intros Hpriv Hpub Hraw Hdate Hwin. unfold main. rewrite Hpriv, Hpub.
  rewrite (createTransaction_returns _ _ _ Hraw). cbn [result calls].
  rewrite stale_run.
  - cbn [result calls app]. unfold signed_bytes.
    rewrite <- (Put_fresh "signature" _ _ (transaction_value_unsigned clock_sign)).
    rewrite rest_without_Put_fresh by apply transaction_value_unsigned.
    now rewrite (Put_fresh _ _ _ (transaction_value_unsigned clock_sign)).
  - rewrite (window_exceeded_parsed clock_verify clock_sign).
    + destruct (Z.leb_spec maximumWindowMs (clock_verify - clock_sign)); [reflexivity|lia].
    + exact Hdate.
Qed.

(** X3. The script never ends on a TypeError: the transaction it verifies
    is the one it has just signed, whose signature is a text.  The only
    exception either function can raise in it is the one for a key that
    [node:crypto] cannot read. *)
Theorem script_never_throws_TypeError (files : string -> option string)
    (clock_sign clock_verify : Z) :
  ending (main files clock_sign clock_verify) <> script_threw TypeError.
Proof.
  unfold main.
  destruct (files "private.pem") as [priv|]; [|discriminate].
  destruct (crypto_sign ALGORITHM (Buffer_from priv)
              (Js.JSON_stringify (transaction_value clock_sign))) as [raw|] eqn:Hraw.
  - rewrite (createTransaction_returns _ _ _ Hraw). cbn [result calls].
    destruct (files "public.pem") as [pub|]; [|discriminate].
    pose proof (verify_text_signature_not_type_error clock_verify _ pub _
                  (Get_signature_of_created clock_sign (Js.VStr (base64_encode raw))))
      as Hne.
    destruct (result (verifyTransaction clock_verify _ pub)) as [b|e];
      cbn [ending]; [discriminate|].
    intros [= ->]. now apply Hne.
  - unfold createTransaction. rewrite (sign_value_throws _ _ Hraw). cbn [result ending].
    discriminate.
Qed.

(** X4. A verdict on the console is never alone: when the script has
    printed [isVerified: b], it ran to its end, both key files were read,
    the line before is the transaction [createTransaction] returned, and
    [b] is what [verifyTransaction] returned for that very transaction. *)
Theorem script_verdict_follows_its_transaction (files : string -> option string)
    (clock_sign clock_verify : Z) (b : bool) :
  In (log_isVerified b) (console (main files clock_sign clock_verify)) ->
  exists priv pub signed,
    files "private.pem" = Some priv /\
    files "public.pem" = Some pub /\
    result (createTransaction clock_sign priv) = Return signed /\
    result (verifyTransaction clock_verify signed pub) = Return b /\
    console (main files clock_sign clock_verify)
    = [log_transaction signed; log_isVerified b] /\
    ending (main files clock_sign clock_verify) = script_done.
Proof.
  unfold main.
  destruct (files "private.pem") as [priv|]; [|intros []].
  destruct (result (createTransaction clock_sign priv)) as [signed|e] eqn:Hc;
    [|intros []].
  destruct (files "public.pem") as [pub|].
  - destruct (result (verifyTransaction clock_verify signed pub)) as [b'|e] eqn:Hv;
      cbn [console ending In].
    + intros [H|[H|[]]]; [discriminate H|]. injection H as ->.
      exists priv, pub, signed. repeat split; assumption.
    + intros [H|[]]. discriminate H.
  - cbn [console In]. intros [H|[]]. discriminate H.
Qed.

(** X6. A transaction whose [created_at] is missing or does not read as a
    date never expires: the elapsed time is NaN, the comparison of line 32
    is false, and a transaction that [pub] accepts verifies as true at
    every clock reading. *)
Theorem unreadable_date_never_expires (transaction : Js.object) (pub : string) :
  Date_new (Js.Get transaction "created_at") = None ->
  ValidlySigned transaction pub ->
  forall clock : Z, result (verifyTransaction clock transaction pub) = Return true.
Proof.
  intros Hdate Hsig clock. apply verified_characterisation.
  split; [now apply window_exceeded_unparsed | exact Hsig].
Qed.

(** X7. Inside the window, a signature property that is not a text (absent,
    null, a boolean or a number) makes [verifyTransaction] throw a
    TypeError after it has created and fed the verifier: [verify] is not
    called and the public key is not looked at. *)
Theorem non_text_signature_throws (clock : Z) (transaction : Js.object) :
  window_exceeded clock (Js.rest_without "signature" transaction) = false ->
  (forall s, Js.Get transaction "signature" <> Js.VStr s) ->
  forall pub : string,
    verifyTransaction clock transaction pub
    = Run [call_createVerify ALGORITHM; call_update (signed_bytes transaction)]
        (Throw TypeError).
Proof.
  intros Hw Hsig pub. unfold verifyTransaction, bind.
  cbn [createVerify update result calls]. rewrite Hw.
  now rewrite (check_signature_not_text _ pub _ Hsig).
Qed.

(** X8. A property whose value is [undefined] is invisible to verification:
    adding one under a new key to a transaction changes neither the calls
    made nor the result, since [JSON.stringify] leaves it out. *)
Theorem undefined_property_is_invisible (clock : Z) (transaction : Js.object)
    (k pub : string) :
  ~ In k (Js.keys transaction) ->
  verifyTransaction clock (Js.Put transaction k Js.VUndefined) pub
  = verifyTransaction clock transaction pub.
Proof.
  intros Hk. rewrite (Put_fresh _ _ _ Hk).
  apply verifyTransaction_ext.
  - unfold signed_bytes, Js.JSON_stringify.
    rewrite rest_without_app, partial_app.
    assert (Js.SerializeJSONObject_partial
              (Js.rest_without "signature" [(k, Js.VUndefined)]) = []) as ->.
    { simpl. now destruct (String.eqb k "signature"). }
    now rewrite app_nil_r.
  - now apply Get_app_undefined.
  - now apply Get_app_undefined.
Qed.

(** X9. A property added to a signed transaction under a new key, with any
    value other than [undefined], is covered by the check: if a signature
    made with [priv] is accepted by [pub] for no other data, verification
    returns false. *)
Theorem added_property_is_rejected (clock_sign clock_verify : Z) (priv pub : string)
    (signed : Js.object) (k : string) (v : Js.value) :
  Binding priv pub -> Base64RoundTrip ->
  result (createTransaction clock_sign priv) = Return signed ->
  ~ In k (Js.keys signed) ->
  v <> Js.VUndefined ->
  result (verifyTransaction clock_verify (Js.Put signed k v) pub) = Return false.
Proof.
  intros Hbind Hb64 Hsigned Hk Hv.
  apply created_signature_is_text in Hsigned as (raw & Hraw & ->).
  assert (Hks : k <> "signature").
  { intros ->. apply Hk. unfold Js.keys. rewrite map_app. apply in_or_app.
    right. now left. }
  apply (rejected_when_bytes_differ clock_sign clock_verify priv pub raw);
    try assumption.
  - now rewrite Get_Put_other.
  - rewrite (Put_fresh _ _ _ Hk). unfold signed_bytes.
    rewrite !rest_without_app.
    rewrite (rest_without_fresh _ _ (transaction_value_unsigned clock_sign)).
    cbn [Js.rest_without filter fst negb String.eqb Ascii.eqb Bool.eqb app].
    destruct (String.eqb_spec k "signature") as [->|_]; [congruence|].
    cbn [negb app].
    destruct (Js.SerializeJSONProperty v) as [text|] eqn:Ht;
      [|destruct v as [| |[|]| |]; try discriminate Ht; congruence].
    intros H. symmetry in H. revert H.
    rewrite <- (app_nil_r (transaction_value clock_sign)) at 1.
    now apply (stringify_dropped_member _ [] k text v).
Qed.

(** X10. A signed transaction from which one of the four fields has been
    removed is rejected: if a signature made with [priv] is accepted by
    [pub] for no other data, verification returns false, also when the
    field removed is [created_at] and the freshness branch can no longer be
    taken. *)
Theorem removed_field_is_rejected (clock_sign clock_verify : Z) (priv pub : string)
    (signed : Js.object) (field : string) :
  Binding priv pub -> Base64RoundTrip ->
  result (createTransaction clock_sign priv) = Return signed ->
  In field ["currency"; "amount"; "remark"; "created_at"] ->
  result (verifyTransaction clock_verify (Js.rest_without field signed) pub) = Return false.
Proof.
  intros Hbind Hb64 Hsigned Hfield.
  apply created_signature_is_text in Hsigned as (raw & Hraw & ->).
  assert (Hfs : "signature" <> field).
  { destruct Hfield as [<-|[<-|[<-|[<-|[]]]]]; discriminate. }
  apply (rejected_when_bytes_differ clock_sign clock_verify priv pub raw);
    try assumption.
  - now rewrite Get_rest_without_other.
  - unfold signed_bytes.
    destruct Hfield as [<-|[<-|[<-|[<-|[]]]]].
    + exact (stringify_dropped_member []
               [("amount", Js.VNum Num.ten_point_two);
                ("remark", Js.VStr "Payment for service");
                ("created_at", Js.VStr (JsDate.Date_toISOString clock_sign))]
               "currency" (Js.QuoteJSONString "USD") (Js.VStr "USD") eq_refl).
    + exact (stringify_dropped_member [("currency", Js.VStr "USD")]
               [("remark", Js.VStr "Payment for service");
                ("created_at", Js.VStr (JsDate.Date_toISOString clock_sign))]
               "amount" "10.2" (Js.VNum Num.ten_point_two) eq_refl).
    + exact (stringify_dropped_member
               [("currency", Js.VStr "USD"); ("amount", Js.VNum Num.ten_point_two)]
               [("created_at", Js.VStr (JsDate.Date_toISOString clock_sign))]
               "remark" (Js.QuoteJSONString "Payment for service")
               (Js.VStr "Payment for service") eq_refl).
    + exact (stringify_dropped_member
               [("currency", Js.VStr "USD"); ("amount", Js.VNum Num.ten_point_two);
                ("remark", Js.VStr "Payment for service")] []
               "created_at" (Js.QuoteJSONString (JsDate.Date_toISOString clock_sign))
               (Js.VStr (JsDate.Date_toISOString clock_sign)) eq_refl).
Qed.

(** X11. Expiry is monotone in the clock.  A transaction rejected by the
    freshness branch at one reading is rejected by it at every later
    reading, under every key; and a transaction that verifies as true at
    one reading verifies as true at every earlier one, with no bound
    towards the past. *)
Theorem expiry_is_monotone (clock clock' : Z) (transaction : Js.object) (pub : string) :
  clock <= clock' ->
  (window_exceeded clock (Js.rest_without "signature" transaction) = true ->
   verifyTransaction clock' transaction pub
   = Run [call_createVerify ALGORITHM; call_update (signed_bytes transaction)]
       (Return false)) /\
  (result (verifyTransaction clock' transaction pub) = Return true ->
   result (verifyTransaction clock transaction pub) = Return true).
Proof.
  intros Hle. split.
  - intros Hw. apply stale_run. now apply (window_exceeded_monotone clock clock').
  - intros H. apply verified_characterisation in H as [Hw Hs].
    apply verified_characterisation. split; [|exact Hs].
    destruct (window_exceeded clock _) eqn:Hc; [|reflexivity].
    apply (window_exceeded_monotone clock clock' _ Hle) in Hc. congruence.
Qed.

End Further.

(** ** The further properties at work on the sample runtime *)

Lemma sample_undated_valid : ValidlySigned (R := Sample.runtime) Sample.undated "K1".
Proof. eexists. split; [reflexivity | vm_compute; reflexivity]. Qed.

(** X1 at work: the script running at [t0] and one second later. *)
Lemma script_prints_verified_witness :
  exists raw,
    main (R := Sample.runtime) Sample.files Sample.t0 (Sample.t0 + 1000)
    = Script
        [ log_transaction
            (transaction_value Sample.t0 ++ [("signature", Js.VStr raw)])%list;
          log_isVerified true ]
        [ call_createSign ALGORITHM;
          call_update (Js.JSON_stringify (transaction_value Sample.t0));
          call_sign "K1";
          call_createVerify ALGORITHM;
          call_update (Js.JSON_stringify (transaction_value Sample.t0));
          call_verify "K1" raw ]
        script_done.
Proof.
  apply (script_prints_verified (R := Sample.runtime) Sample.files
           Sample.t0 (Sample.t0 + 1000) "K1" "K1").
  - reflexivity.
  - reflexivity.
  - apply sample_key_pair. discriminate.
  - exact sample_base64.
  - vm_compute. reflexivity.
  - vm_compute. reflexivity.
Defined.

(** X2 at work: the script held up for five minutes between its two steps. *)
Lemma script_prints_false_when_stale_witness :
  main (R := Sample.runtime) Sample.files Sample.t0 (Sample.t0 + 300000)
  = Script
      [ log_transaction Sample.signed_t0; log_isVerified false ]
      [ call_createSign ALGORITHM;
        call_update (Js.JSON_stringify (transaction_value Sample.t0));
        call_sign "K1";
        call_createVerify ALGORITHM;
        call_update (Js.JSON_stringify (transaction_value Sample.t0)) ]
      script_done.
Proof.
  apply (script_prints_false_when_stale (R := Sample.runtime) Sample.files
           Sample.t0 (Sample.t0 + 300000) "K1" "K1"
           (Sample.tag ALGORITHM "K1" (Js.JSON_stringify (transaction_value Sample.t0)))).
  - reflexivity.
  - reflexivity.
  - reflexivity.
  - vm_compute. reflexivity.
  - vm_compute. discriminate.
Defined.

(** X4 at work: the verdict the script prints at [t0] and one second later. *)
Lemma script_verdict_follows_its_transaction_witness :
  exists priv pub signed,
    Sample.files "private.pem" = Some priv /\
    Sample.files "public.pem" = Some pub /\
    result (createTransaction (R := Sample.runtime) Sample.t0 priv) = Return signed /\
    result (verifyTransaction (R := Sample.runtime) (Sample.t0 + 1000) signed pub)
      = Return true /\
    console (main (R := Sample.runtime) Sample.files Sample.t0 (Sample.t0 + 1000))
    = [log_transaction signed; log_isVerified true] /\
    ending (main (R := Sample.runtime) Sample.files Sample.t0 (Sample.t0 + 1000))
    = script_done.
Proof.
  apply (script_verdict_follows_its_transaction (R := Sample.runtime) Sample.files
           Sample.t0 (Sample.t0 + 1000) true).
  vm_compute. right. left. reflexivity.
Defined.

(** X6 at work: a signed transaction with no date, some thirty years on. *)
Lemma unreadable_date_never_expires_witness :
  result (verifyTransaction (R := Sample.runtime) (Sample.t0 + 1000000000000)
            Sample.undated "K1") = Return true.
Proof.
  apply (unreadable_date_never_expires (R := Sample.runtime) Sample.undated "K1").
  - reflexivity.
  - exact sample_undated_valid.
Defined.

(** X7 at work: a fresh transaction whose signature is [null]. *)
Lemma non_text_signature_throws_witness :
  verifyTransaction (R := Sample.runtime) (Sample.t0 + 1000)
    (Js.Put Sample.signed_t0 "signature" Js.VNull) "K1"
  = Run [ call_createVerify ALGORITHM;
          call_update (signed_bytes (Js.Put Sample.signed_t0 "signature" Js.VNull)) ]
      (Throw TypeError).
Proof.
  apply (non_text_signature_throws (R := Sample.runtime) (Sample.t0 + 1000)
           (Js.Put Sample.signed_t0 "signature" Js.VNull)).
  - vm_compute. reflexivity.
  - intros s. vm_compute. discriminate.
Defined.

(** X8 at work: a [note] property holding [undefined]. *)
Lemma undefined_property_is_invisible_witness :
  verifyTransaction (R := Sample.runtime) (Sample.t0 + 1000)
    (Js.Put Sample.signed_t0 "note" Js.VUndefined) "K1"
  = verifyTransaction (R := Sample.runtime) (Sample.t0 + 1000) Sample.signed_t0 "K1".
Proof.
  apply (undefined_property_is_invisible (R := Sample.runtime) (Sample.t0 + 1000)
           Sample.signed_t0 "note" "K1").
  simpl. intros [H|[H|[H|[H|[H|[]]]]]]; discriminate H.
Defined.

(** X9 at work: a [tip] property added after signing. *)
Lemma added_property_is_rejected_witness :
  result (verifyTransaction (R := Sample.runtime) (Sample.t0 + 1000)
            (Js.Put Sample.signed_t0 "tip" (Js.VBool true)) "K1") = Return false.
Proof.
  apply (added_property_is_rejected (R := Sample.runtime) Sample.t0 (Sample.t0 + 1000)
           "K1" "K1" Sample.signed_t0 "tip" (Js.VBool true)).
  - apply sample_binding. discriminate.
  - exact sample_base64.
  - reflexivity.
  - simpl. intros [H|[H|[H|[H|[H|[]]]]]]; discriminate H.
  - discriminate.
Defined.

(** X10 at work: the remark removed after signing. *)
Lemma removed_field_is_rejected_witness :
  result (verifyTransaction (R := Sample.runtime) (Sample.t0 + 1000)
            (Js.rest_without "remark" Sample.signed_t0) "K1") = Return false.
Proof.
  apply (removed_field_is_rejected (R := Sample.runtime) Sample.t0 (Sample.t0 + 1000)
           "K1" "K1" Sample.signed_t0 "remark").
  - apply sample_binding. discriminate.
  - exact sample_base64.
  - reflexivity.
  - simpl. tauto.
Defined.

(** X11 at work: the edge of the window and a reading after it. *)
Lemma expiry_is_monotone_witness :
  (window_exceeded (R := Sample.runtime) (Sample.t0 + 300000)
     (Js.rest_without "signature" Sample.signed_t0) = true ->
   verifyTransaction (R := Sample.runtime) (Sample.t0 + 400000) Sample.signed_t0 "K1"
   = Run [call_createVerify ALGORITHM; call_update (signed_bytes Sample.signed_t0)]
       (Return false)) /\
  (result (verifyTransaction (R := Sample.runtime) (Sample.t0 + 400000)
             Sample.signed_t0 "K1") = Return true ->
   result (verifyTransaction (R := Sample.runtime) (Sample.t0 + 300000)
             Sample.signed_t0 "K1") = Return true).
Proof.
  apply (expiry_is_monotone (R := Sample.runtime) (Sample.t0 + 300000)
           (Sample.t0 + 400000) Sample.signed_t0 "K1").
  vm_compute. discriminate.
Defined.

(** * Part IV: verification of any transaction *)

Lemma bind_lift_Return {A B : Type} (a : A) (k : A -> run B) :
  bind (lift (Return a)) k = k a.
Proof. unfold bind, lift. cbn [result calls app]. now destruct (k a). Qed.

Lemma bind_lift_Throw {A B : Type} (e : error) (k : A -> run B) :
  bind (lift (Throw e)) k = Run [] (Throw e).
Proof. reflexivity. Qed.

Lemma wide_Get_embed (o : Js.object) (k : string) :
  Wide.Get (Wide.embed o) k = Wide.scalar (Js.Get o k).
Proof.
  induction o as [|[k0 v0] o IH]; simpl; [reflexivity|].
  now destruct (String.eqb k0 k).
Qed.

Lemma wide_rest_without_embed (key : string) (o : Js.object) :
  Wide.rest_without key (Wide.embed o) = Wide.embed (Js.rest_without key o).
Proof.
  induction o as [|[k0 v0] o IH]; simpl; [reflexivity|].
  destruct (String.eqb k0 key); simpl; now rewrite IH.
Qed.

Lemma wide_partial_embed (o : Js.object) :
  Wide.SerializeJSONObject_partial (Wide.embed o)
  = Return (Js.SerializeJSONObject_partial o).
Proof.
  induction o as [|[k0 v0] o IH]; simpl; [reflexivity|].
  rewrite IH. now destruct (Js.SerializeJSONProperty v0).
Qed.

Lemma wide_JSON_stringify_embed (o : Js.object) :
  Wide.JSON_stringify (Wide.embed o) = Return (Some (Js.JSON_stringify o)).
Proof.
  unfold Wide.JSON_stringify. now rewrite wide_Get_embed, wide_partial_embed.
Qed.

Lemma wide_Get_rest_without_other (key k : string) (o : Wide.object) :
  k <> key -> Wide.Get (Wide.rest_without key o) k = Wide.Get o k.
Proof.
  intros Hk. induction o as [|[k0 v0] o IH]; simpl; [reflexivity|].
  destruct (String.eqb_spec k0 key) as [->|Hne]; simpl.
  - destruct (String.eqb_spec key k); [congruence | exact IH].
  - destruct (String.eqb_spec k0 k); [reflexivity | exact IH].
Qed.

Lemma wide_Get_signature_of_rest (t t' : Wide.object) :
  Wide.rest_without "signature" t' = Wide.rest_without "signature" t ->
  Wide.Get t' "created_at" = Wide.Get t "created_at".
Proof.
  intros H.
  rewrite <- (wide_Get_rest_without_other "signature" "created_at" t') by discriminate.
  rewrite H. now apply wide_Get_rest_without_other.
Qed.

Section WideVerification.

Context {R : Runtime}.

Lemma wide_Buffer_from_base64_calls (v : Wide.value) :
  calls (Wide.Buffer_from_base64 v) = [].
Proof. destruct v as [[| | | |s]|c]; reflexivity. Qed.

(** A run of [verifyTransaction], exit by exit: [JSON.stringify] throws at
    line 24; [update] refuses [undefined] at line 24; line 27 throws;
    line 33 returns; line 38 throws; line 36 returns or throws. *)
Lemma wide_verifyTransaction_run (clock : Z) (transaction : Wide.object) (pub : string) :
  Wide.verifyTransaction clock transaction pub =
  match Wide.JSON_stringify (Wide.rest_without "signature" transaction) with
  | Throw e => Run [call_createVerify ALGORITHM] (Throw e)
  | Return None => Run [call_createVerify ALGORITHM] (Throw TypeError)
  | Return (Some bytes) =>
      match Wide.Date_new (Wide.Get transaction "created_at") with
      | Throw e => Run [call_createVerify ALGORITHM; call_update bytes] (Throw e)
      | Return created_at =>
          if JsDate.ge (JsDate.minus (Some clock) created_at) maximumWindowMs
          then Run [call_createVerify ALGORITHM; call_update bytes] (Return false)
          else
            match result (Wide.Buffer_from_base64 (Wide.Get transaction "signature")) with
            | Throw e => Run [call_createVerify ALGORITHM; call_update bytes] (Throw e)
            | Return sig =>
                Run [call_createVerify ALGORITHM; call_update bytes;
                     call_verify (Buffer_from pub) sig]
                  match crypto_verify ALGORITHM (Buffer_from pub) bytes sig with
                  | Some b => Return b
                  | None => Throw CryptoError
                  end
            end
      end
  end.
Proof.
  unfold Wide.verifyTransaction.
  rewrite wide_Get_rest_without_other by discriminate.
  pose proof (wide_Buffer_from_base64_calls (Wide.Get transaction "signature")) as Hc.
  unfold bind, lift. cbn [createVerify result calls app algorithm data append].
  destruct (Wide.JSON_stringify _) as [[bytes|]|e]; [|reflexivity|reflexivity].
  cbn [Wide.update update result calls app algorithm data append].
  destruct (Wide.Date_new _) as [created_at|e]; [|reflexivity].
  cbn [result calls app].
  destruct (JsDate.ge _ _); [reflexivity|].
  destruct (Wide.Buffer_from_base64 _) as [c [sig|e]]; cbn [calls result] in *;
    subst c; reflexivity.
Qed.

(** On a transaction of scalars this is the function of Part I. *)
Lemma wide_agrees_on_scalars (clock : Z) (t : Js.object) (pub : string) :
  Wide.verifyTransaction clock (Wide.embed t) pub = verifyTransaction clock t pub.
Proof.
  rewrite wide_verifyTransaction_run.
  rewrite wide_rest_without_embed, wide_JSON_stringify_embed, !wide_Get_embed.
  cbn [Wide.Date_new Wide.Buffer_from_base64].
  unfold verifyTransaction, window_exceeded, bind. cbn [createVerify update result calls].
  rewrite Get_rest_without_other by discriminate.
  destruct (JsDate.ge _ _); [reflexivity|].
  now destruct (Js.Get t "signature").
Qed.

Lemma wide_window_exceeded_of_rest (clock : Z) (transaction : Wide.object) :
  Wide.window_exceeded clock (Wide.rest_without "signature" transaction)
  = match Wide.Date_new (Wide.Get transaction "created_at") with
    | Return created_at =>
        JsDate.ge (JsDate.minus (Some clock) created_at) maximumWindowMs
    | Throw _ => false
    end.
Proof.
  unfold Wide.window_exceeded.
  now rewrite wide_Get_rest_without_other by discriminate.
Qed.

(** C9, as the code has it.  Take a transaction that line 24 can serialise
    and whose date reads as five minutes or more before the clock.  Then
    every transaction with the same properties other than [signature],
    whatever its signature property holds (a text, an array, a BigInt,
    nothing), is rejected by the freshness branch under every public key:
    the run returns false, throws nothing, and its calls to [node:crypto]
    are the creation of the verifier and the [update] with the serialised
    fields; the signature is neither decoded nor checked. *)
Theorem stale_transaction_rejected_by_freshness_alone (clock created_at : Z)
    (transaction : Wide.object) (bytes : string) :
  Wide.JSON_stringify (Wide.rest_without "signature" transaction)
  = Return (Some bytes) ->
  Wide.Date_new (Wide.Get transaction "created_at") = Return (Some created_at) ->
  clock - created_at >= 5 * 60 * 1000 ->
  forall (pub : string) (transaction' : Wide.object),
    Wide.rest_without "signature" transaction'
    = Wide.rest_without "signature" transaction ->
    Wide.verifyTransaction clock transaction' pub
    = Run [call_createVerify ALGORITHM; call_update bytes] (Return false) /\
    Wide.verification_outcome clock transaction' pub = Return expired.
Proof.
  intros Hjson Hdate Hwin pub t' Hrest.
  assert (Hge : JsDate.ge (JsDate.minus (Some clock) (Some created_at)) maximumWindowMs
                = true).
  { simpl. apply Z.leb_le. unfold maximumWindowMs. lia. }
  assert (Hrun : Wide.verifyTransaction clock t' pub
                 = Run [call_createVerify ALGORITHM; call_update bytes] (Return false)).
  { rewrite wide_verifyTransaction_run, Hrest, Hjson.
    rewrite (wide_Get_signature_of_rest _ _ Hrest), Hdate. now rewrite Hge. }
  split; [exact Hrun|].
  unfold Wide.verification_outcome. rewrite Hrun. cbn [result].
  rewrite wide_window_exceeded_of_rest.
  rewrite (wide_Get_signature_of_rest _ _ Hrest), Hdate. now rewrite Hge.
Qed.

(** C4, as the code has it.  Verification returns a bare boolean, left by
    one of two return statements, neither of which reports malformed input.
    It returns to its caller, without throwing, for every transaction that
    line 24 can serialise and line 27 can make a date of, valid or not,
    when that date is five minutes old or more, and also when line 38 can
    read the signature property as a buffer and the public key is one
    [node:crypto] can read. *)
Theorem verification_returns_boolean (clock : Z) (transaction : Wide.object)
    (pub bytes : string) (created_at : option Z) :
  Wide.JSON_stringify (Wide.rest_without "signature" transaction)
  = Return (Some bytes) ->
  Wide.Date_new (Wide.Get transaction "created_at") = Return created_at ->
  JsDate.ge (JsDate.minus (Some clock) created_at) maximumWindowMs = true \/
  ((exists sig,
      result (Wide.Buffer_from_base64 (Wide.Get transaction "signature")) = Return sig)
   /\ AcceptedKey pub) ->
  exists o,
    Wide.verification_outcome clock transaction pub = Return o /\
    o <> malformed_input /\
    result (Wide.verifyTransaction clock transaction pub) = Return (is_valid o).
Proof.
  intros Hjson Hdate H.
  unfold Wide.verification_outcome.
  rewrite wide_window_exceeded_of_rest, wide_verifyTransaction_run, Hjson, Hdate.
  destruct (JsDate.ge _ _) eqn:Hge.
  - exists expired. cbn [result]. now repeat split.
  - destruct H as [H | ((sig & Hsig) & Hkey)]; [discriminate H|].
    rewrite Hsig. cbn [result].
    destruct (crypto_verify _ _ _ _) as [[|]|] eqn:Hv.
    + exists valid. now repeat split.
    + exists signature_invalid. now repeat split.
    + now apply Hkey in Hv.
Qed.

(** X5. [verifyTransaction] returns true in exactly one situation: line 24
    serialises the properties other than [signature], line 27 makes a date
    of [created_at] or NaN, the freshness branch is not taken, line 38
    reads the signature property as a buffer (it is a text, or an array or
    a buffer of bytes), and [node:crypto] accepts that buffer for the
    serialised bytes under the given key. *)
Theorem true_only_for_fresh_and_signed (clock : Z) (transaction : Wide.object)
    (pub : string) :
  result (Wide.verifyTransaction clock transaction pub) = Return true <->
  exists (bytes : string) (created_at : option Z) (sig : Buffer),
    Wide.JSON_stringify (Wide.rest_without "signature" transaction)
    = Return (Some bytes) /\
    Wide.Date_new (Wide.Get transaction "created_at") = Return created_at /\
    JsDate.ge (JsDate.minus (Some clock) created_at) maximumWindowMs = false /\
    result (Wide.Buffer_from_base64 (Wide.Get transaction "signature")) = Return sig /\
    crypto_verify ALGORITHM (Buffer_from pub) bytes sig = Some true.
Proof.
  rewrite wide_verifyTransaction_run. split.
  - destruct (Wide.JSON_stringify _) as [[bytes|]|e]; [|discriminate|discriminate].
    destruct (Wide.Date_new _) as [created_at|e]; [|discriminate].
    destruct (JsDate.ge _ _) eqn:Hge; [discriminate|].
    destruct (result (Wide.Buffer_from_base64 _)) as [sig|e]; [|discriminate].
    cbn [result].
    destruct (crypto_verify _ _ _ _) as [[|]|] eqn:Hv; try discriminate.
    intros _. exists bytes, created_at, sig. now repeat split.
  - intros (bytes & created_at & sig & -> & -> & -> & -> & Hv).
    cbn [result]. now rewrite Hv.
Qed.

End WideVerification.

(** ** Runs on transactions that are not all scalars *)

(** The limit of C4 and C9: a stale transaction that carries a BigInt
    throws a TypeError at line 24, before the freshness branch and before
    [update]. *)
Example stale_bigint_field_throws :
  Wide.verifyTransaction (R := Sample.runtime) (Sample.t0 + 6 * 60 * 1000)
    Sample.with_bigint "K1"
  = Run [call_createVerify "sha256"] (Throw TypeError).
Proof. vm_compute. reflexivity. Qed.

(** A [toJSON] method of the transaction decides what line 24 feeds the
    verifier: when it returns nothing, [update] throws, stale or not. *)
Example stale_toJSON_method_throws :
  Wide.verifyTransaction (R := Sample.runtime) (Sample.t0 + 6 * 60 * 1000)
    Sample.with_toJSON "K1"
  = Run [call_createVerify "sha256"] (Throw TypeError).
Proof. vm_compute. reflexivity. Qed.

(** When it returns an object, the text of that object is what is hashed
    and checked. *)
Example toJSON_method_gives_the_bytes :
  Wide.verifyTransaction (R := Sample.runtime) Sample.t0 Sample.speaks_for_itself "K1"
  = Run [ call_createVerify "sha256"; call_update "{}";
          call_verify "K1" (Sample.tag ALGORITHM "K1" "{}") ]
      (Return true).
Proof. vm_compute. reflexivity. Qed.

(** The reach of X5: inside the window, the right signature given as the
    array of its bytes is accepted. *)
Example array_signature_verifies :
  Wide.verifyTransaction (R := Sample.runtime) (Sample.t0 + 1000)
    Sample.array_signature "K1"
  = Run [ call_createVerify "sha256";
          call_update (Js.JSON_stringify (transaction_value Sample.t0));
          call_verify "K1" Sample.raw_t0 ]
      (Return true).
Proof. vm_compute. reflexivity. Qed.

(** Inside the window a BigInt signature throws at line 38; the verifier
    has been fed by then. *)
Example bigint_signature_throws :
  Wide.verifyTransaction (R := Sample.runtime) (Sample.t0 + 1000)
    Sample.bigint_signature "K1"
  = Run [ call_createVerify "sha256";
          call_update (Js.JSON_stringify (transaction_value Sample.t0)) ]
      (Throw TypeError).
Proof. vm_compute. reflexivity. Qed.

(** C9 at work: six minutes after signing, under a key that never signed,
    the signature replaced by a BigInt. *)
Lemma stale_transaction_rejected_by_freshness_alone_witness :
  Wide.verifyTransaction (R := Sample.runtime) (Sample.t0 + 6 * 60 * 1000)
    Sample.bigint_signature "K2"
  = Run [ call_createVerify ALGORITHM;
          call_update (Js.JSON_stringify (transaction_value Sample.t0)) ]
      (Return false) /\
  Wide.verification_outcome (R := Sample.runtime) (Sample.t0 + 6 * 60 * 1000)
    Sample.bigint_signature "K2" = Return expired.
Proof.
  apply (stale_transaction_rejected_by_freshness_alone (R := Sample.runtime)
           (Sample.t0 + 6 * 60 * 1000) Sample.t0 (Wide.embed Sample.signed_t0)
           (Js.JSON_stringify (transaction_value Sample.t0))).
  - vm_compute. reflexivity.
  - vm_compute. reflexivity.
  - vm_compute. discriminate.
  - reflexivity.
Defined.

(** C4 at work: the signature as an array of bytes, under a readable key
    that did not sign. *)
Lemma verification_returns_boolean_witness :
  exists o,
    Wide.verification_outcome (R := Sample.runtime) (Sample.t0 + 1000)
      Sample.array_signature "K2" = Return o /\
    o <> malformed_input /\
    result (Wide.verifyTransaction (R := Sample.runtime) (Sample.t0 + 1000)
              Sample.array_signature "K2") = Return (is_valid o).
Proof.
  apply (verification_returns_boolean (R := Sample.runtime) (Sample.t0 + 1000)
           Sample.array_signature "K2"
           (Js.JSON_stringify (transaction_value Sample.t0)) (Some Sample.t0)).
  - vm_compute. reflexivity.
  - vm_compute. reflexivity.
  - right. split.
    + exists Sample.raw_t0. reflexivity.
    + apply sample_accepted_key. discriminate.
Defined.
